(** * LLM-DublinDataScience: the Ollama demo scripts, embedded in Rocq

    The repository holds three Python scripts.  [demo.py] is a Streamlit page
    whose helper [classify_text] builds a few-shot prompt, posts it to a local
    Ollama server, and reads the reply as JSON with a keyword fallback; its
    second tab appends hand-labelled rows to a CSV file.  [image.py] decodes an
    uploaded picture and asks a vision model for a caption.

    The scripts are mostly calls into Python's standard library and into
    [requests], [csv] and [streamlit].  The first half of this file models the
    library behaviour the scripts rely on ([str] methods, [repr], [float],
    [json.loads], [raise_for_status], [csv.DictWriter]); the second half
    transcribes the scripts themselves, statement by statement, on top of it.

    Conventions.
    - A Python [str] is a Rocq [string].  The model is exact on ASCII text;
      bytes above 127 stand for the UTF-8 encoding of other code points and
      are carried around uninterpreted (never whitespace, never cased).
    - A Python [int] is a [Z]; a Python [float] is a primitive binary64
      [float].
    - A Python call that may raise returns a [result]: [Ok v] or [Raise e]. *)

From Stdlib Require Import ZArith String Ascii List Bool Lia.
From Stdlib Require Import Floats.PrimFloat Floats.SpecFloat Floats.FloatOps.
From Stdlib Require Import DecimalString.
From stdpp Require Import base gmap strings.
Import ListNotations.

(* Decimal literals such as 0.6 denote the nearest binary64 value, as in Python. *)
Set Warnings "-inexact-float,-register-all".

Open Scope string_scope.
Open Scope Z_scope.

(* Text is built by concatenation throughout; let [simpl] compute it. *)
Arguments String.append !s1 s2 : simpl nomatch.

(** ** Exceptions and fallible calls *)

(** The exception classes the scripts can meet.  Each carries [str(e)].
    [is_request_exception] is the subclass test used by [image.py]'s
    [except requests.RequestException]. *)
Inductive exn : Type :=
| RuntimeError (msg : string)
| HTTPError (msg : string)
| TransportError (msg : string)      (* ConnectionError, Timeout, ... raised by requests.post *)
| RequestsJSONDecodeError (msg : string)  (* raised by Response.json() *)
| JSONDecodeError (msg : string)     (* raised by json.loads *)
| AttributeError (msg : string)
| TypeError (msg : string)
| ValueError (msg : string)
| OverflowError (msg : string)
| OSError (msg : string)
| ImageError (msg : string).         (* whatever PIL raises on undecodable bytes *)

Definition exn_str (e : exn) : string :=
  match e with
  | RuntimeError m | HTTPError m | TransportError m | RequestsJSONDecodeError m
  | JSONDecodeError m | AttributeError m | TypeError m | ValueError m
  | OverflowError m | OSError m | ImageError m => m
  end.

Definition is_request_exception (e : exn) : bool :=
  match e with
  | HTTPError _ | TransportError _ | RequestsJSONDecodeError _ => true
  | _ => false
  end.

Inductive result (A : Type) : Type :=
| Ok (a : A)
| Raise (e : exn).
Arguments Ok {A} a.
Arguments Raise {A} e.

Definition bind {A B} (r : result A) (k : A -> result B) : result B :=
  match r with
  | Ok a => k a
  | Raise e => Raise e
  end.

Notation "'let*' x ':=' r 'in' k" := (bind r (fun x => k))
  (at level 10, x name, r at level 100, k at level 200).

(** ** [str] methods *)

Definition nat_of_char (c : ascii) : nat := nat_of_ascii c.

(** [str.isspace] on one character: TAB..CR, FS..US and SPACE. *)
Definition isspace (c : ascii) : bool :=
  let n := nat_of_char c in
  ((9 <=? n)%nat && (n <=? 13)%nat) || ((28 <=? n)%nat && (n <=? 32)%nat).

Fixpoint lstrip (s : string) : string :=
  match s with
  | String c s' => if isspace c then lstrip s' else s
  | EmptyString => EmptyString
  end.

Fixpoint rstrip (s : string) : string :=
  match s with
  | String c s' =>
      match rstrip s' with
      | EmptyString => if isspace c then EmptyString else String c EmptyString
      | r => String c r
      end
  | EmptyString => EmptyString
  end.

(** [s.strip()] *)
Definition strip (s : string) : string := rstrip (lstrip s).

Definition lower_char (c : ascii) : ascii :=
  let n := nat_of_char c in
  if (65 <=? n)%nat && (n <=? 90)%nat then ascii_of_nat (n + 32) else c.

(** [s.lower()] *)
Fixpoint lower (s : string) : string :=
  match s with
  | String c s' => String (lower_char c) (lower s')
  | EmptyString => EmptyString
  end.

(** [s.startswith(p)] *)
Fixpoint startswith (p s : string) : bool :=
  match p, s with
  | EmptyString, _ => true
  | String a p', String b s' => Ascii.eqb a b && startswith p' s'
  | String _ _, EmptyString => false
  end.

(** [sub in s] *)
Fixpoint str_in (sub s : string) : bool :=
  startswith sub s ||
  match s with
  | String _ s' => str_in sub s'
  | EmptyString => false
  end.

Fixpoint drop_chars (n : nat) (s : string) : string :=
  match n, s with
  | S n', String _ s' => drop_chars n' s'
  | _, _ => s
  end.






(** [sep.join(parts)] *)
Fixpoint join (sep : string) (parts : list string) : string :=
  match parts with
  | [] => EmptyString
  | [p] => p
  | p :: rest => p ++ sep ++ join sep rest
  end.

Definition str_truthy (s : string) : bool :=
  match s with EmptyString => false | _ => true end.

Definition LF : string := String (ascii_of_nat 10) EmptyString.
Definition CR : string := String (ascii_of_nat 13) EmptyString.
Definition TAB : string := String (ascii_of_nat 9) EmptyString.
Definition DQ : string := String (ascii_of_nat 34) EmptyString.

(** ** [int] and [float] *)

(** [str(z)] for an [int]. *)
Definition str_of_int (z : Z) : string := NilZero.string_of_int (Z.to_int z).

Definition isdigit (c : ascii) : bool :=
  let n := nat_of_char c in (48 <=? n)%nat && (n <=? 57)%nat.

Definition digit_value (c : ascii) : Z := Z.of_nat (nat_of_char c - 48).

(** Value of a string of decimal digits, most significant first. *)
Fixpoint digits_value_from (acc : Z) (s : string) : Z :=
  match s with
  | String c s' => digits_value_from (10 * acc + digit_value c) s'
  | EmptyString => acc
  end.

Definition digits_value (s : string) : Z := digits_value_from 0 s.

(** Number of decimal digits of a positive integer. *)
Definition ndigits (z : Z) : Z := Z.of_nat (String.length (str_of_int z)).

(** The binary64 value nearest to [(-1)^neg * m * 10^e] for [0 <= m], ties to
    even, as CPython's correctly rounded string-to-float conversion gives it;
    out-of-range magnitudes go to infinity or zero.  A negative power of ten
    is divided out with 64 extra quotient bits and a sticky bit, so that the
    single rounding of [binary_normalize] is the rounding of the exact
    value. *)
Definition sf_of_decimal (neg : bool) (m e : Z) : spec_float :=
  if m <=? 0 then S754_zero neg
  else
    let d := ndigits m in
    if 310 <? d + e then S754_infinity neg
    else if d + e <? -330 then S754_zero neg
    else if 0 <=? e then
      binary_normalize prec emax (cond_Zopp neg (m * 10 ^ e)) 0 neg
    else
      let den := 10 ^ (- e) in
      let k := 64 + Z.log2_up den in
      let num := m * 2 ^ k in
      let sticky := if num mod den =? 0 then 0 else 1 in
      binary_normalize prec emax (cond_Zopp neg (2 * (num / den) + sticky))
                       (- k - 1) neg.

Definition float_of_decimal (neg : bool) (m e : Z) : float :=
  SF2Prim (sf_of_decimal neg m e).

(** [float(z)] for an [int]: nearest binary64, [OverflowError] when the
    rounded value would not be finite. *)
Definition float_of_int (z : Z) : result float :=
  match binary_normalize prec emax z 0 false with
  | S754_infinity _ => Raise (OverflowError "int too large to convert to float")
  | sf => Ok (SF2Prim sf)
  end.

(** *** [repr] of a [float]: the shortest digit string that reads back *)

(** [floor (log10 (n / d))] for positive [n], [d]. *)
Definition floor_log10 (n d : Z) : Z :=
  let p := ndigits n - ndigits d in
  let fits := if 0 <=? p then 10 ^ p * d <=? n else d <=? n * 10 ^ (- p) in
  if fits then p else p - 1.

(** The two [k]-digit decimals [lo * 10^s <= n/d < (lo+1) * 10^s] around
    [n/d], with [true] when the upper one is strictly nearer. *)
Definition bracket (n d p k : Z) : Z * Z * bool :=
  let s := p - k + 1 in
  let num := if 0 <=? s then n else n * 10 ^ (- s) in
  let den := if 0 <=? s then d * 10 ^ s else d in
  (num / den, s, den <? 2 * (num mod den)).

Fixpoint strip_zeros (fuel : nat) (c s : Z) : Z * Z :=
  match fuel with
  | O => (c, s)
  | S fuel' => if (c mod 10 =? 0) && negb (c =? 0)
               then strip_zeros fuel' (c / 10) (s + 1) else (c, s)
  end.

(** Shortest decimal [(c, s)], meaning [c * 10^s], that converts back to the
    finite positive float [m * 2^e]; of two candidates of one length the
    nearer is taken. *)
Fixpoint shortest_from (fuel : nat) (k : Z) (target : spec_float) (n d p : Z)
  : Z * Z :=
  let '(lo, s, up_nearer) := bracket n d p k in
  match fuel with
  | O => (lo, s)
  | S fuel' =>
      let ok_lo := SFeqb (sf_of_decimal false lo s) target in
      let ok_hi := SFeqb (sf_of_decimal false (lo + 1) s) target in
      if ok_lo && ok_hi then (if up_nearer then (lo + 1, s) else (lo, s))
      else if ok_lo then (lo, s)
      else if ok_hi then (lo + 1, s)
      else shortest_from fuel' (k + 1) target n d p
  end.

Definition shortest_decimal (m : positive) (e : Z) : Z * Z :=
  let n := if 0 <=? e then Zpos m * 2 ^ e else Zpos m in
  let d := if 0 <=? e then 1 else 2 ^ (- e) in
  let '(c, s) := shortest_from 17 1 (S754_finite false m e) n d (floor_log10 n d) in
  strip_zeros 20 c s.

Fixpoint zeros (n : nat) : string :=
  match n with O => EmptyString | S n' => String "0" (zeros n') end.

Definition take_chars (n : nat) (s : string) : string := String.substring 0 n s.

(** Layout of the digits [ds] with the decimal point after [decpt] of them,
    as [repr] prints it: exponent form when [decpt <= -4] or [decpt > 16]. *)
Definition layout_repr (ds : string) (decpt : Z) : string :=
  let n := Z.of_nat (String.length ds) in
  if (decpt <=? -4) || (16 <? decpt) then
    let ex := decpt - 1 in
    let exs := str_of_int (Z.abs ex) in
    take_chars 1 ds
      ++ (if 1 <? n then "." ++ drop_chars 1 ds else EmptyString)
      ++ "e" ++ (if ex <? 0 then "-" else "+")
      ++ (if Z.abs ex <? 10 then "0" else EmptyString) ++ exs
  else if decpt <=? 0 then "0." ++ zeros (Z.to_nat (- decpt)) ++ ds
  else if decpt <? n then
    take_chars (Z.to_nat decpt) ds ++ "." ++ drop_chars (Z.to_nat decpt) ds
  else ds ++ zeros (Z.to_nat (decpt - n)) ++ ".0".

(** [repr(f)], which is also [str(f)]. *)
Definition repr_float (f : float) : string :=
  match Prim2SF f with
  | S754_nan => "nan"
  | S754_infinity s => if s then "-inf" else "inf"
  | S754_zero s => if s then "-0.0" else "0.0"
  | S754_finite s m e =>
      let '(c, sh) := shortest_decimal m e in
      (if s then "-" else EmptyString) ++ layout_repr (str_of_int c) (ndigits c + sh)
  end.

(** *** [float(s)] for a [str] *)

(** Longest run of digits at the head of [s], and what follows it. *)
Fixpoint span_digits (s : string) : string * string :=
  match s with
  | String c s' =>
      if isdigit c then let '(d, r) := span_digits s' in (String c d, r)
      else (EmptyString, s)
  | EmptyString => (EmptyString, EmptyString)
  end.

(** The rest of a [digitpart] after one of its digits: further digits, each
    optionally preceded by a single underscore. *)
Fixpoint digit_tail (s : string) : string * string :=
  match s with
  | String c s' =>
      if isdigit c then let '(d, r) := digit_tail s' in (String c d, r)
      else if Ascii.eqb c "_" then
        match s' with
        | String c2 s'' =>
            if isdigit c2 then let '(d, r) := digit_tail s'' in (String c2 d, r)
            else (EmptyString, s)
        | EmptyString => (EmptyString, s)
        end
      else (EmptyString, s)
  | EmptyString => (EmptyString, EmptyString)
  end.

Definition digitpart (s : string) : option (string * string) :=
  match s with
  | String c s' => if isdigit c then let '(d, r) := digit_tail s' in Some (String c d, r)
                   else None
  | EmptyString => None
  end.

(** [[sign]]: whether a minus was read, and the rest. *)
Definition opt_sign (s : string) : bool * string :=
  match s with
  | String "-" s' => (true, s')
  | String "+" s' => (false, s')
  | _ => (false, s)
  end.

(** [number ::= [digitpart] "." digitpart | digitpart ["."]]: the integer and
    fraction digits, and the rest. *)
Definition float_number (s : string) : option (string * string * string) :=
  match digitpart s with
  | Some (ip, String "." r) =>
      match digitpart r with
      | Some (fp, r') => Some (ip, fp, r')
      | None => Some (ip, EmptyString, r)
      end
  | Some (ip, r) => Some (ip, EmptyString, r)
  | None =>
      match s with
      | String "." r =>
          match digitpart r with
          | Some (fp, r') => Some (EmptyString, fp, r')
          | None => None
          end
      | _ => None
      end
  end.

(** [exponent ::= ("e" | "E") [sign] digitpart], which must end the text;
    no exponent at all counts as zero. *)
Definition float_exponent (s : string) : option Z :=
  match s with
  | EmptyString => Some 0
  | String c s' =>
      if Ascii.eqb c "e" || Ascii.eqb c "E" then
        let '(neg, r) := opt_sign s' in
        match digitpart r with
        | Some (ds, EmptyString) => Some (cond_Zopp neg (digits_value ds))
        | _ => None
        end
      else None
  end.

Definition float_of_str (s : string) : result float :=
  let '(neg, body) := opt_sign (strip s) in
  let word := lower body in
  if String.eqb word "inf" || String.eqb word "infinity" then
    Ok (if neg then neg_infinity else infinity)
  else if String.eqb word "nan" then Ok nan
  else
    match float_number body with
    | Some (ip, fp, r) =>
        match float_exponent r with
        | Some ex =>
            Ok (float_of_decimal neg (digits_value (ip ++ fp))
                                 (ex - Z.of_nat (String.length fp)))
        | None => Raise (ValueError "could not convert string to float")
        end
    | None => Raise (ValueError "could not convert string to float")
    end.

(** ** [repr] of a [str] *)

Definition hex_digit (n : nat) : ascii :=
  if (n <? 10)%nat then ascii_of_nat (48 + n) else ascii_of_nat (87 + n).

(** One character inside a [repr] quoted with [q]. *)
Definition repr_char (q c : ascii) : string :=
  let n := nat_of_char c in
  if Ascii.eqb c q || Ascii.eqb c "\" then String "\" (String c EmptyString)
  else if (n =? 9)%nat then "\t"
  else if (n =? 10)%nat then "\n"
  else if (n =? 13)%nat then "\r"
  else if (n <? 32)%nat || (n =? 127)%nat then
    "\x" ++ String (hex_digit (n / 16)) (String (hex_digit (n mod 16)) EmptyString)
  else String c EmptyString.

Fixpoint repr_chars (q : ascii) (s : string) : string :=
  match s with
  | String c s' => repr_char q c ++ repr_chars q s'
  | EmptyString => EmptyString
  end.

Definition SQ : string := "'".

(** [repr(s)]: single quotes, unless the text has a single quote and no
    double quote. *)
Definition repr_str (s : string) : string :=
  if str_in SQ s && negb (str_in DQ s)
  then DQ ++ repr_chars (ascii_of_nat 34) s ++ DQ
  else SQ ++ repr_chars "'" s ++ SQ.

(** ** JSON values and [json.loads] *)

(** What [json.loads] can return.  An object is a [dict]: its members are
    kept in insertion order with distinct keys. *)
Inductive json : Type :=
| JNull
| JBool (b : bool)
| JInt (z : Z)
| JFloat (f : float)
| JString (s : string)
| JArray (items : list json)
| JObject (members : list (string * json)).

(** [d.get(k)]: [None] when the key is absent. *)
Fixpoint dict_get (k : string) (d : list (string * json)) : option json :=
  match d with
  | (k', v) :: d' => if String.eqb k k' then Some v else dict_get k d'
  | [] => None
  end.

(** [d[k] = v]: overwrite in place, or append a new key. *)
Fixpoint dict_set (k : string) (v : json) (d : list (string * json))
  : list (string * json) :=
  match d with
  | (k', v') :: d' =>
      if String.eqb k k' then (k', v) :: d' else (k', v') :: dict_set k v d'
  | [] => [(k, v)]
  end.

Definition is_json_ws (c : ascii) : bool :=
  let n := nat_of_char c in
  (n =? 32)%nat || (n =? 9)%nat || (n =? 10)%nat || (n =? 13)%nat.

Fixpoint skip_ws (s : string) : string :=
  match s with
  | String c s' => if is_json_ws c then skip_ws s' else s
  | EmptyString => EmptyString
  end.

Definition hex_value (c : ascii) : option N :=
  let n := nat_of_char c in
  if (48 <=? n)%nat && (n <=? 57)%nat then Some (N.of_nat (n - 48))
  else if (65 <=? n)%nat && (n <=? 70)%nat then Some (N.of_nat (n - 55))
  else if (97 <=? n)%nat && (n <=? 102)%nat then Some (N.of_nat (n - 87))
  else None.

(** The four hex digits of a [\uXXXX] escape. *)
Definition decode_uXXXX (s : string) : option (N * string) :=
  match s with
  | String a (String b (String c (String d r))) =>
      match hex_value a, hex_value b, hex_value c, hex_value d with
      | Some x, Some y, Some z, Some w =>
          Some (((x * 16 + y) * 16 + z) * 16 + w, r)%N
      | _, _, _, _ => None
      end
  | _ => None
  end.

Definition byte_str (n : N) : string := String (ascii_of_N n) EmptyString.

(** [chr(cp)] in the byte convention of this file: its UTF-8 encoding. *)
Definition chr_utf8 (cp : N) : string :=
  (if cp <? 128 then byte_str cp
   else if cp <? 2048 then
     byte_str (192 + cp / 64) ++ byte_str (128 + cp mod 64)
   else if cp <? 65536 then
     byte_str (224 + cp / 4096) ++ byte_str (128 + (cp / 64) mod 64)
       ++ byte_str (128 + cp mod 64)
   else
     byte_str (240 + cp / 262144) ++ byte_str (128 + (cp / 4096) mod 64)
       ++ byte_str (128 + (cp / 64) mod 64) ++ byte_str (128 + cp mod 64))%N.

Definition simple_escape (c : ascii) : option string :=
  let n := nat_of_char c in
  if (n =? 34)%nat || (n =? 92)%nat || (n =? 47)%nat then Some (String c EmptyString)
  else if Ascii.eqb c "b" then Some (byte_str 8)
  else if Ascii.eqb c "f" then Some (byte_str 12)
  else if Ascii.eqb c "n" then Some (byte_str 10)
  else if Ascii.eqb c "r" then Some (byte_str 13)
  else if Ascii.eqb c "t" then Some (byte_str 9)
  else None.

(** [\uXXXX] read at [s] (just after the [u]); a high surrogate directly
    followed by another [\u] escape holding a low surrogate is combined with
    it. *)
Definition unicode_escape (s : string) : option (string * string) :=
  match decode_uXXXX s with
  | Some (uni, r) =>
      if ((55296 <=? uni) && (uni <=? 56319))%N then
        match r with
        | String c1 (String c2 r2) =>
            if Ascii.eqb c1 "\" && Ascii.eqb c2 "u" then
              match decode_uXXXX r2 with
              | Some (uni2, r3) =>
                  if ((56320 <=? uni2) && (uni2 <=? 57343))%N
                  then Some (chr_utf8 (65536 + ((uni - 55296) * 1024
                                                + (uni2 - 56320))), r3)%N
                  else Some (chr_utf8 uni, r)
              | None => None
              end
            else Some (chr_utf8 uni, r)
        | _ => Some (chr_utf8 uni, r)
        end
      else Some (chr_utf8 uni, r)
  | None => None
  end.

(** [scanstring] in strict mode, entered just after the opening quote:
    the decoded text and what follows the closing quote. *)
Fixpoint scanstring (fuel : nat) (s : string) : option (string * string) :=
  match fuel with
  | O => None
  | S fuel' =>
      match s with
      | EmptyString => None
      | String c s' =>
          let n := nat_of_char c in
          if (n =? 34)%nat then Some (EmptyString, s')
          else if (n =? 92)%nat then
            match s' with
            | String e s'' =>
                let decoded :=
                  if Ascii.eqb e "u" then unicode_escape s''
                  else match simple_escape e with
                       | Some t => Some (t, s'')
                       | None => None
                       end in
                match decoded with
                | Some (t, r) =>
                    match scanstring fuel' r with
                    | Some (rest, r') => Some (t ++ rest, r')
                    | None => None
                    end
                | None => None
                end
            | EmptyString => None
            end
          else if (n <? 32)%nat then None
          else
            match scanstring fuel' s' with
            | Some (rest, r') => Some (String c rest, r')
            | None => None
            end
      end
  end.

(** Longest [int] literal [int()] accepts (sys.int_info.default_max_str_digits). *)
Definition max_str_digits : nat := 4300.

(** A number at the head of the text, by the decoder's pattern: an optional
    minus; a lone zero or a digit run not starting with zero; optionally a
    dot and at least one digit; optionally [e] or [E], an optional sign and at
    least one digit.  Each part gives what it read and what follows. *)
Definition int_part (s : string) : option (string * string) :=
  match s with
  | String c r => if Ascii.eqb c "0" then Some ("0", r)
                  else if isdigit c then Some (span_digits s)
                  else None
  | EmptyString => None
  end.

Definition frac_part (s : string) : option string * string :=
  if startswith "." s then
    let '(fd, r) := span_digits (drop_chars 1 s) in
    if str_truthy fd then (Some fd, r) else (None, s)
  else (None, s).

Definition exp_part (s : string) : option Z * string :=
  match s with
  | String c re =>
      if Ascii.eqb c "e" || Ascii.eqb c "E" then
        let '(eneg, re') := if startswith "-" re then (true, drop_chars 1 re)
                            else if startswith "+" re then (false, drop_chars 1 re)
                            else (false, re) in
        let '(ed, r) := span_digits re' in
        if str_truthy ed then (Some (cond_Zopp eneg (digits_value ed)), r)
        else (None, s)
      else (None, s)
  | EmptyString => (None, s)
  end.

(** The number is an [int] when there is neither fraction nor exponent, a
    [float] otherwise. *)
Definition scan_number (s : string) : option (json * string) :=
  let '(neg, s1) := if startswith "-" s then (true, drop_chars 1 s)
                    else (false, s) in
  match int_part s1 with
  | None => None
  | Some (ip, r) =>
      let '(frac, r1) := frac_part r in
      let '(ex, r2) := exp_part r1 in
      match frac, ex with
      | None, None =>
          if (max_str_digits <? String.length ip)%nat then None
          else Some (JInt (cond_Zopp neg (digits_value ip)), r2)
      | _, _ =>
          let fd := match frac with Some fd => fd | None => EmptyString end in
          let e := match ex with Some e => e | None => 0 end in
          Some (JFloat (float_of_decimal neg (digits_value (ip ++ fd))
                                         (e - Z.of_nat (String.length fd))), r2)
      end
  end.

(** [s] with the prefix [p] removed, when it starts with it. *)
Definition after_prefix (p s : string) : option string :=
  if startswith p s then Some (drop_chars (String.length p) s) else None.

(** The decoder proper, in three mutually recursive parts: one value at the
    head of the text; the rest of an array once a value is due; the rest of an
    object once the opening quote of a key has been consumed.  Each part is
    written over the parts it calls, and the knot is tied below. *)
Definition value_at
           (items : list json -> string -> option (list json * string))
           (members : list (string * json) -> string
                      -> option (list (string * json) * string))
           (s : string) : option (json * string) :=
  match s with
  | EmptyString => None
  | String c s' =>
      let n := nat_of_char c in
      if (n =? 34)%nat then
        match scanstring (S (String.length s')) s' with
        | Some (t, r) => Some (JString t, r)
        | None => None
        end
      else if Ascii.eqb c "{" then
        match skip_ws s' with
        | String q r =>
            if Ascii.eqb q "}" then Some (JObject [], r)
            else if (nat_of_char q =? 34)%nat then
              match members [] r with
              | Some (d, r') => Some (JObject d, r')
              | None => None
              end
            else None
        | EmptyString => None
        end
      else if Ascii.eqb c "[" then
        let r := skip_ws s' in
        if startswith "]" r then Some (JArray [], drop_chars 1 r)
        else
          match items [] r with
          | Some (l, r') => Some (JArray l, r')
          | None => None
          end
      else if startswith "null" s then Some (JNull, drop_chars 4 s)
      else if startswith "true" s then Some (JBool true, drop_chars 4 s)
      else if startswith "false" s then Some (JBool false, drop_chars 5 s)
      else
        match scan_number s with
        | Some vr => Some vr
        | None =>
            if startswith "NaN" s then Some (JFloat nan, drop_chars 3 s)
            else if startswith "Infinity" s
            then Some (JFloat infinity, drop_chars 8 s)
            else if startswith "-Infinity" s
            then Some (JFloat neg_infinity, drop_chars 9 s)
            else None
        end
  end.

Definition items_from
           (once : string -> option (json * string))
           (items : list json -> string -> option (list json * string))
           (acc : list json) (s : string) : option (list json * string) :=
  match once s with
  | Some (v, r) =>
      match skip_ws r with
      | String c r' =>
          if Ascii.eqb c "]" then Some ((acc ++ [v])%list, r')
          else if Ascii.eqb c "," then items (acc ++ [v])%list (skip_ws r')
          else None
      | EmptyString => None
      end
  | None => None
  end.

Definition members_from
           (once : string -> option (json * string))
           (members : list (string * json) -> string
                      -> option (list (string * json) * string))
           (acc : list (string * json)) (s : string)
  : option (list (string * json) * string) :=
  match scanstring (S (String.length s)) s with
  | Some (k, r) =>
      match skip_ws r with
      | String c r1 =>
          if Ascii.eqb c ":" then
            match once (skip_ws r1) with
            | Some (v, r2) =>
                match skip_ws r2 with
                | String c' r3 =>
                    if Ascii.eqb c' "}" then Some (dict_set k v acc, r3)
                    else if Ascii.eqb c' "," then
                      match skip_ws r3 with
                      | String q r4 =>
                          if (nat_of_char q =? 34)%nat
                          then members (dict_set k v acc) r4
                          else None
                      | EmptyString => None
                      end
                    else None
                | EmptyString => None
                end
            | None => None
            end
          else None
      | EmptyString => None
      end
  | None => None
  end.

(** Every call passes on a smaller [fuel].  Fuel above twice the length of
    the text is never used up ([scan_enough_fuel] below). *)
Fixpoint scan_once (fuel : nat) (s : string) : option (json * string) :=
  match fuel with
  | O => None
  | S fuel' => value_at (scan_items fuel') (scan_members fuel') s
  end

with scan_items (fuel : nat) (acc : list json) (s : string)
  : option (list json * string) :=
  match fuel with
  | O => None
  | S fuel' => items_from (scan_once fuel') (scan_items fuel') acc s
  end

with scan_members (fuel : nat) (acc : list (string * json)) (s : string)
  : option (list (string * json) * string) :=
  match fuel with
  | O => None
  | S fuel' => members_from (scan_once fuel') (scan_members fuel') acc s
  end.

(** [json.loads(s)]: one value, surrounded by optional whitespace and nothing
    else; anything else raises [JSONDecodeError].  (The interpreter's own
    limit on the depth of nesting is left out.) *)
Definition json_loads (s : string) : result json :=
  let body := skip_ws s in
  match scan_once (2 * String.length body + 2) body with
  | Some (v, r) =>
      match skip_ws r with
      | EmptyString => Ok v
      | _ => Raise (JSONDecodeError "Extra data")
      end
  | None => Raise (JSONDecodeError "Expecting value")
  end.

(** [s] between double quotes, for writing JSON text. *)
Definition quoted (s : string) : string := DQ ++ s ++ DQ.

(** ** [repr], [str], [float] and truth of a decoded value *)

Fixpoint py_repr (v : json) : string :=
  match v with
  | JNull => "None"
  | JBool b => if b then "True" else "False"
  | JInt z => str_of_int z
  | JFloat f => repr_float f
  | JString s => repr_str s
  | JArray items => "[" ++ join ", " (map py_repr items) ++ "]"
  | JObject members =>
      "{" ++ join ", " (map (fun kv => repr_str (fst kv) ++ ": " ++ py_repr (snd kv))
                            members) ++ "}"
  end.

(** [str(v)] *)
Definition py_str (v : json) : string :=
  match v with
  | JString s => s
  | _ => py_repr v
  end.

(** [float(v)]: [TypeError] for [None], lists and dicts, [ValueError] for a
    string that is no number, [OverflowError] for an [int] out of range. *)
Definition py_float (v : json) : result float :=
  match v with
  | JFloat f => Ok f
  | JInt z => float_of_int z
  | JBool b => Ok (if b then 1%float else 0%float)
  | JString s => float_of_str s
  | JNull | JArray _ | JObject _ =>
      Raise (TypeError "float() argument must be a string or a real number")
  end.

(** [bool(v)] *)
Definition py_truthy (v : json) : bool :=
  match v with
  | JNull => false
  | JBool b => b
  | JInt z => negb (z =? 0)
  | JFloat f => negb (PrimFloat.eqb f 0%float)
  | JString s => str_truthy s
  | JArray items => match items with [] => false | _ => true end
  | JObject members => match members with [] => false | _ => true end
  end.

(** [v.get(k, default)]: only a [dict] has the method. *)
Definition get_method (v : json) (k : string) (default : json) : result json :=
  match v with
  | JObject d => Ok (match dict_get k d with Some x => x | None => default end)
  | _ => Raise (AttributeError "object has no attribute 'get'")
  end.

(** [v.strip()]: only a [str] has the method. *)
Definition strip_method (v : json) : result string :=
  match v with
  | JString s => Ok (strip s)
  | _ => Raise (AttributeError "object has no attribute 'strip'")
  end.

(** [str(l)] for a list of strings, as an f-string renders [label_list]. *)
Definition str_of_list (l : list string) : string :=
  "[" ++ join ", " (map repr_str l) ++ "]".

(** ** [requests] *)

(** The keyword arguments the scripts give to [requests.post]. *)
Record request : Type := {
  req_url : string;
  req_json : json;
  req_timeout : Z
}.

Record response : Type := {
  status_code : Z;
  reason : string;
  url : string;
  resp_text : string
}.

(** The network as the scripts see it: what the server answers to a request
    (a response, or the exception [requests.post] raises), and the requests
    issued so far, oldest first. *)
Record world : Type := {
  server : request -> result response;
  sent : list request
}.

(** [requests.post(url, json=..., timeout=...)] *)
Definition requests_post (rq : request) (w : world) : result response * world :=
  (server w rq, {| server := server w; sent := (sent w ++ [rq])%list |}).

(** [resp.raise_for_status()] *)
Definition raise_for_status (r : response) : result unit :=
  if (400 <=? status_code r) && (status_code r <? 500) then
    Raise (HTTPError (str_of_int (status_code r) ++ " Client Error: " ++ reason r
                        ++ " for url: " ++ url r))
  else if (500 <=? status_code r) && (status_code r <? 600) then
    Raise (HTTPError (str_of_int (status_code r) ++ " Server Error: " ++ reason r
                        ++ " for url: " ++ url r))
  else Ok tt.

(** [resp.json()] *)
Definition response_json (r : response) : result json :=
  match json_loads (resp_text r) with
  | Ok v => Ok v
  | Raise e => Raise (RequestsJSONDecodeError (exn_str e))
  end.

(** ** [csv] *)

Definition csv_special (c : ascii) : bool :=
  let n := nat_of_char c in
  (n =? 44)%nat || (n =? 34)%nat || (n =? 13)%nat || (n =? 10)%nat.

Fixpoint needs_quotes (s : string) : bool :=
  match s with
  | String c s' => csv_special c || needs_quotes s'
  | EmptyString => false
  end.

Fixpoint double_quotes (s : string) : string :=
  match s with
  | String c s' =>
      if (nat_of_char c =? 34)%nat then String c (String c (double_quotes s'))
      else String c (double_quotes s')
  | EmptyString => EmptyString
  end.

(** One field under the default dialect (QUOTE_MINIMAL, doublequote). *)
Definition csv_field (s : string) : string :=
  if needs_quotes s then DQ ++ double_quotes s ++ DQ else s.

(** What [writer.writerow] writes for a row of two fields or more. *)
Definition csv_row (fields : list string) : string :=
  join "," (map csv_field fields) ++ CR ++ LF.

(** ** Files *)

(** Regular files by path, and the paths on which [open(path, "a")] raises
    (missing directory, no permission, ...) with the message of the error. *)
Record filesystem : Type := {
  files : gmap string string;
  denied : string -> option string
}.

(** [os.path.exists(path)] *)
Definition path_exists (path : string) (fs : filesystem) : bool :=
  match files fs !! path with Some _ => true | None => false end.

(** Opening [path] in append mode, writing [data] and closing: the file is
    created when missing. *)
Definition append_file (path data : string) (fs : filesystem)
  : result unit * filesystem :=
  match denied fs path with
  | Some msg => (Raise (OSError msg), fs)
  | None =>
      let old := match files fs !! path with Some c => c | None => EmptyString end in
      (Ok tt, {| files := <[path := old ++ data]> (files fs); denied := denied fs |})
  end.

(** ** Streamlit output *)

Inductive ui : Type :=
| StInfo (s : string)
| StSuccess (s : string)
| StWarning (s : string)
| StError (s : string)
| StCaption (s : string)
| StSubheader (s : string)
| StWrite (s : string)
| StImage.

(** * demo.py *)

Module Demo.

Definition OLLAMA_BASE : string := "http://127.0.0.1:11434".
Definition DEFAULT_MODEL : string := "llama3.1:8b".

(** A few-shot example, [{"text": ..., "label": ...}]. *)
Record shot : Type := {
  shot_text : string;
  shot_label : string
}.

(** Lines 21-22: the default of [few_shots]. *)
Definition default_shots (few_shots : option (list shot)) : list shot :=
  match few_shots with Some l => l | None => [] end.

(** Lines 24-29: the [system] block. *)
Definition system_block (label_list : list string) : string :=
  "You are an expert email text classifier." ++ LF
  ++ "Choose exactly one label from " ++ str_of_list label_list ++ "." ++ LF
  ++ "Respond ONLY as compact JSON: {" ++ quoted "label" ++ ":" ++ quoted "<one>"
  ++ "," ++ quoted "confidence" ++ ":0-1}." ++ LF
  ++ "Do not include extra keys or explanations".

(** Lines 30-32: the [shots] block. *)
Definition shots_block (few_shots : list shot) : string :=
  join LF (map (fun s => "Text: " ++ shot_text s ++ LF ++ "Label: " ++ shot_label s)
               few_shots).

(** Line 33: the [user] block. *)
Definition user_block (text : string) : string :=
  "Text: " ++ text ++ LF ++ "Label:".

(** Line 34: the prompt. *)
Definition build_prompt (text : string) (label_list : list string)
           (few_shots : list shot) : string :=
  strip ("<<SYS>>" ++ system_block label_list ++ "<<SYS>>" ++ LF ++ LF
         ++ shots_block few_shots ++ LF ++ LF ++ user_block text).

(** Lines 38-46: the arguments of the call to [requests.post]. *)
Definition generate_request (model prompt : string) : request :=
  {| req_url := OLLAMA_BASE ++ "/api/generate";
     req_json := JObject [("model", JString model);
                          ("prompt", JString prompt);
                          ("options", JObject [("temperature", JFloat 0.0);
                                               ("num_ctx", JInt 2048)]);
                          ("stream", JBool false)];
     req_timeout := 120 |}.

Definition not_found_message : string :=
  "Ollama API path not found (404). Is the server running at "
  ++ OLLAMA_BASE ++ "? Try `ollama serve` or set OLLAMA_BASE.".

(** Lines 47-52: the status checks made on the response. *)
Definition check_status (resp : response) : result response :=
  let* _ := (if status_code resp =? 404
             then Raise (RuntimeError not_found_message)
             else Ok tt) in
  let* _ := raise_for_status resp in
  Ok resp.

(** Lines 36-52, the body of the first [try]: the response, or the exception
    that reaches the [except] clause. *)
Definition post_generate (model prompt : string) (w : world)
  : result response * world :=
  let '(r, w') := requests_post (generate_request model prompt) w in
  (let* resp := r in check_status resp, w').

(** Lines 60-62, the body of the second [try]. *)
Definition parse_strict (out : string) : result (string * float) :=
  let* data := json_loads out in
  let* lv := get_method data "label" (JString "Other") in
  let label := py_str lv in
  let* cv := get_method data "confidence" (JFloat 0.5) in
  let* confidence := py_float cv in
  Ok (label, confidence).

(** Lines 68-71: the [for] loop with its [break], threading the two variables
    it assigns. *)
Fixpoint scan_labels (low : string) (label_list : list string)
         (label : string) (confidence : float) : string * float :=
  match label_list with
  | L :: rest =>
      if str_in (lower L) low then (L, 0.6%float)
      else scan_labels low rest label confidence
  | [] => (label, confidence)
  end.

(** Lines 65-71: the [except] clause of the second [try]. *)
Definition fallback (out : string) (label_list : list string) : string * float :=
  let label := "Other" in
  let confidence := 0.3%float in
  let low := lower out in
  scan_labels low label_list label confidence.

(** Lines 58-71: label and confidence read off the model's text. *)
Definition interpret (out : string) (label_list : list string) : string * float :=
  match parse_strict out with
  | Ok lc => lc
  | Raise _ => fallback out label_list
  end.

(** Line 56. *)
Definition response_text (resp : response) : result string :=
  let* body := response_json resp in
  let* field := get_method body "response" (JString EmptyString) in
  strip_method field.

(** [classify_text(model, text, label_list, few_shots)], lines 15-73.  The
    result is the returned triple, or the exception that escapes the call. *)
Definition classify_text (model text : string) (label_list : list string)
           (few_shots : option (list shot)) (w : world)
  : result (string * float * string) * world :=
  let few_shots := default_shots few_shots in
  let prompt := build_prompt text label_list few_shots in
  let '(attempt, w') := post_generate model prompt w in
  match attempt with
  | Raise e => (Ok ("ERROR", 0.0%float, "Request failed: " ++ exn_str e), w')
  | Ok resp =>
      (let* out := response_text resp in
       let '(label, confidence) := interpret out label_list in
       Ok (label, confidence, out),
       w')
  end.

(** Line 160: the columns of the CSV file. *)
Definition fieldnames : list string := ["text"; "label"; "subject"; "from"].

(** Lines 149-171: the handler of the "Save item" button.  [chosen_label] is
    [None] when the select box has no option. *)
Definition save_item (csv_path email_text : string) (chosen_label : option string)
           (subj sender : string) (fs : filesystem) : list ui * filesystem :=
  if negb (str_truthy (strip email_text)) then
    ([StError "Please paste some text before saving."], fs)
  else
    match chosen_label with
    | None => ([StError "Please select a label."], fs)
    | Some chosen =>
        if negb (str_truthy chosen) then ([StError "Please select a label."], fs)
        else
          let new_file := negb (path_exists csv_path fs) in
          let written :=
            (if new_file then csv_row fieldnames else EmptyString)
            ++ csv_row [strip email_text; chosen; strip subj; strip sender] in
          match append_file csv_path written fs with
          | (Ok _, fs') => ([StSuccess ("Saved to " ++ csv_path)], fs')
          | (Raise e, fs') => ([StError ("Failed to save: " ++ exn_str e)], fs')
          end
    end.

End Demo.

(** * image.py *)

Module ImageApp.

Definition OLLAMA_BASE : string := "http://127.0.0.1:11434".
Definition MODEL_NAME : string := "qwen2.5vl:3b".

(** What the script reads of a decoded picture: [img.size], [img.format],
    [dict(img.getexif())] with values already printed, and the base64 text of
    its RGB JPEG re-encoding (lines 55-57). *)
Record image : Type := {
  img_size : Z * Z;
  img_format : option string;
  img_exif : list (Z * string);
  img_b64 : string
}.

Record upload : Type := {
  up_name : string;
  up_bytes : string
}.

(** How the script ends: it runs to its last line, [st.stop()] is called, or
    an exception escapes. *)
Inductive ending : Type :=
| Finished
| Stopped
| Crashed (e : exn).

Definition exif_tags : list Z := [256; 257; 271; 272; 274; 306; 36867].

(** Lines 39-52: the metadata expander. *)
Definition show_metadata (img : image) : list ui :=
  match img_exif img with
  | [] => [StWrite "No EXIF metadata found."]
  | meta =>
      match filter (fun kv => existsb (Z.eqb (fst kv)) exif_tags) meta with
      | [] => [StWrite "No common EXIF fields found."]
      | items => map (fun kv => StWrite (str_of_int (fst kv) ++ ": " ++ snd kv)) items
      end
  end.

(** Lines 69-78: the arguments of the call to [requests.post]. *)
Definition caption_request (prompt : string) (img : image) : request :=
  {| req_url := OLLAMA_BASE ++ "/api/generate";
     req_json := JObject [("model", JString MODEL_NAME);
                          ("prompt", JString prompt);
                          ("images", JArray [JString (img_b64 img)]);
                          ("stream", JBool false)];
     req_timeout := 120 |}.

(** Line 80: [(r.json().get("response") or "").strip()]. *)
Definition caption_text (r : response) : result string :=
  let* body := response_json r in
  let* field := get_method body "response" JNull in
  strip_method (if py_truthy field then field else JString EmptyString).

(** Lines 66-87: what the "Generate caption" button does. *)
Definition generate_caption (prompt : string) (img : image) (w : world)
  : ending * list ui * world :=
  let '(r, w') := requests_post (caption_request prompt img) w in
  let attempt :=
    let* resp := r in
    let* _ := raise_for_status resp in
    let* caption := caption_text resp in
    Ok (if str_truthy caption
        then [StSubheader "Caption"; StWrite caption]
        else [StWarning "No caption returned."]) in
  match attempt with
  | Ok out => (Finished, out, w')
  | Raise e =>
      if is_request_exception e
      then (Finished, [StError ("Ollama request failed: " ++ exn_str e)], w')
      else (Crashed e, [], w')
  end.

(** The whole script, lines 13-90, on one run: [decode] stands for
    [Image.open] followed by [ImageOps.exif_transpose], [prompt] is the text
    of the prompt box and [clicked] tells whether the button was pressed. *)
Definition page (decode : string -> result image) (uploaded : option upload)
           (prompt : string) (clicked : bool) (w : world)
  : ending * list ui * world :=
  match uploaded with
  | None =>
      (Finished,
       [StInfo ("Drop an image above or click to browse. "
                ++ "iPhone/Android rotations are fixed automatically.")],
       w)
  | Some up =>
      let raw_bytes := up_bytes up in
      match decode raw_bytes with
      | Raise e => (Stopped, [StError ("Could not read that image: " ++ exn_str e)], w)
      | Ok img =>
          let '(wd, ht) := img_size img in
          let fmt := match img_format img with
                     | Some f => if str_truthy f then f else "Unknown"
                     | None => "Unknown"
                     end in
          let shown :=
            ([StCaption ("**" ++ up_name up ++ "** — " ++ str_of_int wd ++ "×"
                           ++ str_of_int ht ++ "px — " ++ fmt);
              StImage] ++ show_metadata img)%list in
          if clicked then
            let '(e, out, w') := generate_caption prompt img w in
            (e, (shown ++ out)%list, w')
          else (Finished, shown, w)
      end
  end.

End ImageApp.

(** * demo.py: the sidebar and the first tab *)

(** [s.split(",")]: the pieces between the commas, at least one. *)
Fixpoint split_comma (s : string) : list string :=
  match s with
  | EmptyString => [EmptyString]
  | String c s' =>
      if Ascii.eqb c "," then EmptyString :: split_comma s'
      else match split_comma s' with
           | p :: ps => String c p :: ps
           | [] => [String c EmptyString]
           end
  end.



Module DemoPage.

(** Line 81: the labels typed in the sidebar. *)
Definition label_list_of (labels_csv : string) : list string :=
  map strip (List.filter (fun x => str_truthy (strip x)) (split_comma labels_csv)).

(** Lines 91-94: the few-shot examples typed in the sidebar; an example is
    kept when its text and its label are both non-empty. *)
Definition shot_if (t l : string) : list Demo.shot :=
  if str_truthy t && str_truthy l
  then [{| Demo.shot_text := t; Demo.shot_label := l |}]
  else [].

Definition FEW_SHOTS (fs1_t fs1_l fs2_t fs2_l fs3_t fs3_l : string)
  : list Demo.shot :=
  (shot_if fs1_t fs1_l ++ shot_if fs2_t fs2_l ++ shot_if fs3_t fs3_l)%list.

(** What the first tab puts on the page. *)
Inductive shown : Type :=
| Success (s : string)
| Markdown (s : string)
| Code (s : string).

(** How a run of the tab ends: it reaches its last line, a rerun is asked
    for, or an exception escapes. *)
Inductive ending : Type :=
| Finished
| Rerun
| Crashed (e : exn).



End DemoPage.

(** * Specification-side vocabulary *)

(** The text of the error for a reply of status 400..599, as [requests]
    words it. *)
Definition http_error_text (resp : response) : string :=
  str_of_int (status_code resp)
  ++ (if status_code resp <? 500 then " Client Error: " else " Server Error: ")
  ++ reason resp ++ " for url: " ++ url resp.

(** The three kinds of request failure the specification names, each with
    the description that the caller is given: [requests.post] raises [e]; the
    reply has status 404; the reply has another status from 400 to 599. *)
Inductive request_fails : result response -> string -> Prop :=
| fails_transport (e : exn) :
    request_fails (Raise e) (exn_str e)
| fails_not_found (resp : response) :
    status_code resp = 404 ->
    request_fails (Ok resp) Demo.not_found_message
| fails_status (resp : response) :
    status_code resp <> 404 ->
    400 <= status_code resp < 600 ->
    request_fails (Ok resp) (http_error_text resp).

(** A result as the data model describes it: the label is one of the
    caller's, or a sentinel, and the confidence lies in [[0,1]]. *)
Definition in_unit_interval (c : float) : bool :=
  PrimFloat.leb 0%float c && PrimFloat.leb c 1%float.

Definition label_allowed (label_list : list string) (label : string) : Prop :=
  In label label_list \/ label = "Other" \/ label = "ERROR".





(** The request a call to [classify_text] sends. *)
Definition sent_request (model text : string) (label_list : list string)
           (few_shots : option (list Demo.shot)) : request :=
  Demo.generate_request
    model (Demo.build_prompt text label_list (Demo.default_shots few_shots)).

(** * Scenarios *)

(** [s] between backslash-escaped double quotes, for writing a JSON text
    inside a JSON string. *)
Definition escaped_quoted (s : string) : string := "\" ++ DQ ++ s ++ "\" ++ DQ.

(** A server that gives every request the same answer. *)
Definition always (answer : result response) : world :=
  {| server := fun _ => answer; sent := [] |}.

Definition generate_url : string := "http://127.0.0.1:11434/api/generate".

(** A 200 reply whose body is the object [{"response": <model_text>}], the
    text being given as it stands between the quotes of the JSON string. *)
Definition ok_reply (json_string_body : string) : response :=
  {| status_code := 200; reason := "OK"; url := generate_url;
     resp_text := "{" ++ quoted "response" ++ ":" ++ quoted json_string_body ++ "}" |}.

Definition two_labels : list string := ["Billing"; "Spam"].

(** The model answers with JSON naming a label nobody offered and a
    confidence of 7. *)
Definition reply_foo_7 : response :=
  ok_reply ("{" ++ escaped_quoted "label" ++ ":" ++ escaped_quoted "Foo" ++ ","
                ++ escaped_quoted "confidence" ++ ":7}").

(** The model answers with a label in plain words, padded with a space and
    a newline. *)
Definition reply_padded_spam : response := ok_reply " Spam\n".

(** A reply of status 304, which has no body. *)
Definition reply_304 : response :=
  {| status_code := 304; reason := "Not Modified"; url := generate_url;
     resp_text := EmptyString |}.

Definition reply_404 : response :=
  {| status_code := 404; reason := "Not Found"; url := generate_url;
     resp_text := "404 page not found" |}.

Definition reply_500 : response :=
  {| status_code := 500; reason := "Internal Server Error"; url := generate_url;
     resp_text := EmptyString |}.


(** The JSON text [{"label":"<label>","confidence":<confidence>}]. *)
Definition answer_json (label confidence : string) : string :=
  "{" ++ quoted "label" ++ ":" ++ label ++ "," ++ quoted "confidence" ++ ":"
      ++ confidence ++ "}".

(** An image file that decodes, and the picture it holds. *)
Definition holiday_jpg : ImageApp.upload :=
  {| ImageApp.up_name := "holiday.jpg"; ImageApp.up_bytes := "JFIF-bytes" |}.

Definition holiday_image : ImageApp.image :=
  {| ImageApp.img_size := (640, 480);
     ImageApp.img_format := Some "JPEG";
     ImageApp.img_exif := [(274, "6"); (40961, "1")];
     ImageApp.img_b64 := "/9j/4AAQSkZJRg==" |}.


(** A decoder that knows these two files. *)
Definition decode_known (raw_bytes : string) : result ImageApp.image :=
  if String.eqb raw_bytes "JFIF-bytes" then Ok holiday_image
  else Raise (ImageError "cannot identify image file").







(** A scanner that, when it succeeds, leaves less text than it was given. *)
Definition shrinks {A : Type} (p : string -> option (A * string)) : Prop :=
  forall s x r, p s = Some (x, r) -> (String.length r < String.length s)%nat.

(** A 200 reply whose "response" is null. *)
Definition reply_null_response : response :=
  {| status_code := 200; reason := "OK"; url := generate_url;
     resp_text := "{" ++ quoted "response" ++ ":null}" |}.

(** Reading a row back, field by field: the inverse of [csv_field], used to
    tell the rows of two records apart.  [read_quoted] starts after the
    opening quote; [read_plain] stops before a comma, quote or line break. *)
Definition is_dq (c : ascii) : bool := (nat_of_char c =? 34)%nat.

Fixpoint read_quoted (s : string) : option (string * string) :=
  match s with
  | String c r =>
      if is_dq c then
        match r with
        | String c2 r2 =>
            if is_dq c2 then
              match read_quoted r2 with
              | Some (f, rest) => Some (String c2 f, rest)
              | None => None
              end
            else Some (EmptyString, r)
        | EmptyString => Some (EmptyString, EmptyString)
        end
      else
        match read_quoted r with
        | Some (f, rest) => Some (String c f, rest)
        | None => None
        end
  | EmptyString => None
  end.

Fixpoint read_plain (s : string) : string * string :=
  match s with
  | String c r =>
      if csv_special c then (EmptyString, s)
      else let '(f, rest) := read_plain r in (String c f, rest)
  | EmptyString => (EmptyString, EmptyString)
  end.

Definition read_field (s : string) : option (string * string) :=
  match s with
  | String c r => if is_dq c then read_quoted r else Some (read_plain s)
  | EmptyString => Some (EmptyString, EmptyString)
  end.

(** A text that starts with a comma or a line break, as what follows a
    field in a row does. *)
Definition after_field (s : string) : Prop :=
  exists c r, s = String c r /\ csv_special c = true /\ is_dq c = false.


(** A 200 reply whose body is a JSON list. *)
Definition reply_list_body : response :=
  {| status_code := 200; reason := "OK"; url := generate_url;
     resp_text := "[1]" |}.

(** * Facts about the library model *)

(** The model of the library, run on inputs whose Python results are known. *)

Example strip_example : strip ("  a b " ++ LF) = "a b".
Proof. reflexivity. Qed.

Example lower_example : lower "Hello World_Z[@`{" = "hello world_z[@`{".
Proof. reflexivity. Qed.

Example str_in_example :
  str_in "spam" (lower "This looks like Spam to me") = true
  /\ str_in "billing" (lower "This looks like Spam to me") = false
  /\ str_in EmptyString "abc" = true.
Proof. repeat split; reflexivity. Qed.

Example repr_str_example :
  map repr_str ["Billing"; "it's"; "say " ++ quoted "hi"; "a\b"; "x" ++ TAB ++ LF]
  = ["'Billing'"; quoted "it's"; "'say " ++ quoted "hi" ++ "'"; "'a\\b'"; "'x\t\n'"].
Proof. vm_compute. reflexivity. Qed.

(** The decimal conversion agrees with the literals of the prover. *)
Example float_of_decimal_example :
  map (fun me => float_of_decimal false (fst me) (snd me))
      [(9, -1); (6, -1); (3, -1); (5, -324); (17976931348623157, 292);
       (2, 308); (9007199254740993, 0); (24703282292062327208051, -346)]
  = [0.9; 0.6; 0.3; 5e-324; 1.7976931348623157e308; infinity;
     9007199254740992; 0]%float.
Proof. vm_compute. reflexivity. Qed.

Example repr_float_example :
  map repr_float
      [0.9; 0.5; 0; 7; 1e15; 1e16; 0.0001; 0.00001; 123.456; 5e-324;
       1.7976931348623157e308; 0.30000000000000004; 1e23; -2.5; infinity; nan]%float
  = ["0.9"; "0.5"; "0.0"; "7.0"; "1000000000000000.0"; "1e+16"; "0.0001";
     "1e-05"; "123.456"; "5e-324"; "1.7976931348623157e+308";
     "0.30000000000000004"; "1e+23"; "-2.5"; "inf"; "nan"].
Proof. vm_compute. reflexivity. Qed.

Example float_of_str_example :
  map float_of_str ["0.9"; " 1e3 "; "1_000.5"; ".5"; "5."; "-inf"; "+1.5E-3"]
  = map Ok [0.9; 1000; 1000.5; 0.5; 5; neg_infinity; 0.0015]%float
  /\ map float_of_str ["high"; EmptyString; "1__0"; "1e"; "0x10"; "1 2"]
     = repeat (Raise (ValueError "could not convert string to float")) 6.
Proof. split; vm_compute; reflexivity. Qed.

Example float_of_int_example :
  float_of_int 7 = Ok 7%float
  /\ float_of_int (10 ^ 400) = Raise (OverflowError "int too large to convert to float").
Proof. split; vm_compute; reflexivity. Qed.

Example json_loads_example :
  json_loads (" [1, 2.5 ,true,null, [ ] , {}, " ++ quoted "x\u0041\n" ++ ", {"
                ++ quoted "a" ++ " : 1 , " ++ quoted "b" ++ ":[{}], "
                ++ quoted "a" ++ ":2}] ")
  = Ok (JArray [JInt 1; JFloat 2.5; JBool true; JNull; JArray []; JObject [];
                JString ("xA" ++ LF);
                JObject [("a", JInt 2); ("b", JArray [JObject []])]]).
Proof. vm_compute. reflexivity. Qed.

Example json_loads_rejects :
  forall s,
    In s ["This looks like Spam to me"; EmptyString; "[1,]"; "{,}"; "[1 2]"; "nul";
          "["; "'abc'"; "{" ++ quoted "a" ++ "}"; "{" ++ quoted "a" ++ ":1,}";
          quoted ("a" ++ LF); quoted "\q"] ->
    json_loads s = Raise (JSONDecodeError "Expecting value").
Proof.
  intros s H; repeat (destruct H as [<- | H]; [vm_compute; reflexivity|]).
  destruct H.
Qed.

Example json_loads_extra_data :
  json_loads "1 2" = Raise (JSONDecodeError "Extra data")
  /\ json_loads "01" = Raise (JSONDecodeError "Extra data")
  /\ json_loads "1." = Raise (JSONDecodeError "Extra data").
Proof. repeat split; vm_compute; reflexivity. Qed.

(** Escapes above ASCII come out as UTF-8, surrogate pairs combined. *)
Example json_loads_unicode :
  json_loads (quoted "\u00e9\ud83d\ude00")
  = Ok (JString (chr_utf8 233 ++ chr_utf8 128512))
  /\ map nat_of_char (list_ascii_of_string (chr_utf8 233 ++ chr_utf8 128512))
     = [195; 169; 240; 159; 152; 128]%nat.
Proof. split; vm_compute; reflexivity. Qed.

Example py_str_example :
  py_str (JArray [JInt 1; JString "a"; JFloat 0.5; JNull; JObject [("k", JBool true)]])
  = "[1, 'a', 0.5, None, {'k': True}]"
  /\ py_str (JString "a") = "a".
Proof. split; vm_compute; reflexivity. Qed.

Example csv_row_example :
  csv_row ["a,b"; "say " ++ quoted "hi"; EmptyString; "plain"]
  = quoted "a,b" ++ "," ++ DQ ++ "say " ++ DQ ++ DQ ++ "hi" ++ DQ ++ DQ ++ DQ
    ++ ",,plain" ++ CR ++ LF
  /\ csv_row Demo.fieldnames = "text,label,subject,from" ++ CR ++ LF.
Proof. split; vm_compute; reflexivity. Qed.

Example raise_for_status_example :
  raise_for_status reply_500
  = Raise (HTTPError ("500 Server Error: Internal Server Error for url: "
                        ++ generate_url))
  /\ raise_for_status reply_304 = Ok tt.
Proof. split; vm_compute; reflexivity. Qed.

(** The three ways a request fails, as the caller sees them. *)
Example classify_text_failures :
  fst (Demo.classify_text "llama3.1:8b" "hello" two_labels None
                          (always (Raise (TransportError "Connection refused"))))
  = Ok ("ERROR", 0.0%float, "Request failed: Connection refused")
  /\ fst (Demo.classify_text "llama3.1:8b" "hello" two_labels None
                             (always (Ok reply_404)))
     = Ok ("ERROR", 0.0%float,
           "Request failed: Ollama API path not found (404). Is the server running at "
           ++ "http://127.0.0.1:11434? Try `ollama serve` or set OLLAMA_BASE.")
  /\ fst (Demo.classify_text "llama3.1:8b" "hello" two_labels None
                             (always (Ok reply_500)))
     = Ok ("ERROR", 0.0%float,
           "Request failed: 500 Server Error: Internal Server Error for url: "
           ++ generate_url).
Proof. repeat split; vm_compute; reflexivity. Qed.

(** The interpreter on answers of several shapes: a bare JSON string or
    array has no [get] and falls back; an empty object takes both defaults; a
    confidence given as text is converted; an integer too large for a float
    falls back. *)
Example interpret_examples :
  Demo.interpret (quoted "Billing") two_labels = ("Billing", 0.6%float)
  /\ Demo.interpret ("[" ++ quoted "Spam" ++ "]") two_labels = ("Spam", 0.6%float)
  /\ Demo.interpret "{}" two_labels = ("Other", 0.5%float)
  /\ Demo.interpret (answer_json "null" "true") two_labels = ("None", 1%float)
  /\ Demo.interpret (answer_json "[1, 2.50]" (quoted " 1e-1 ")) two_labels
     = ("[1, 2.5]", 0.1%float)
  /\ Demo.interpret (answer_json (quoted "Spam") ("1" ++ zeros 400)) two_labels
     = ("Spam", 0.6%float).
Proof. repeat split; vm_compute; reflexivity. Qed.


(** * The decoder and its fuel *)

Section DecoderLengths.

Local Open Scope nat_scope.

Lemma skip_ws_length (s : string) : String.length (skip_ws s) <= String.length s.
Proof.
  induction s as [|c s IH]; simpl; [lia|].
  destruct (is_json_ws c); simpl; lia.
Qed.

Lemma drop_chars_length (n : nat) (s : string) :
  String.length (drop_chars n s) <= String.length s.
Proof.
  revert s; induction n as [|n IH]; intros [|c s]; simpl; try lia.
  specialize (IH s); lia.
Qed.

(** After a one-character prefix has been recognised and dropped, less is
    left. *)
Lemma drop_prefix_char_length (c : ascii) (s : string) :
  startswith (String c EmptyString) s = true ->
  String.length (drop_chars 1 s) < String.length s.
Proof. destruct s; simpl; [discriminate | lia]. Qed.

Lemma span_digits_length (s d r : string) :
  span_digits s = (d, r) -> String.length r <= String.length s.
Proof.
  revert d r; induction s as [|c s IH]; simpl; intros d r H.
  - inversion H; simpl; lia.
  - destruct (isdigit c).
    + destruct (span_digits s) as [d' r'] eqn:E.
      inversion H; subst. specialize (IH d' r eq_refl). lia.
    + inversion H; subst; simpl; lia.
Qed.

Lemma decode_uXXXX_length (s : string) (u : N) (r : string) :
  decode_uXXXX s = Some (u, r) -> String.length s = 4 + String.length r.
Proof.
  unfold decode_uXXXX.
  destruct s as [|a [|b [|c [|d r']]]]; try discriminate.
  destruct (hex_value a), (hex_value b), (hex_value c), (hex_value d);
    try discriminate.
  intros H; inversion H; subst; reflexivity.
Qed.

Lemma unicode_escape_length (s t r : string) :
  unicode_escape s = Some (t, r) -> String.length r < String.length s.
Proof.
  unfold unicode_escape.
  destruct (decode_uXXXX s) as [[uni r0]|] eqn:E; [|discriminate].
  apply decode_uXXXX_length in E.
  assert (Hkeep : forall x : string, Some (x, r0) = Some (t, r) ->
                                     String.length r < String.length s)
    by (intros x H; inversion H; subst; lia).
  destruct ((55296 <=? uni)%N && (uni <=? 56319)%N); [|apply Hkeep].
  destruct r0 as [|c1 [|c2 r2]]; try apply Hkeep.
  destruct (Ascii.eqb c1 "\" && Ascii.eqb c2 "u"); [|apply Hkeep].
  destruct (decode_uXXXX r2) as [[uni2 r3]|] eqn:E2; [|discriminate].
  apply decode_uXXXX_length in E2.
  destruct ((56320 <=? uni2)%N && (uni2 <=? 57343)%N); [|apply Hkeep].
  intros H; inversion H; subst; simpl in *; lia.
Qed.

Lemma scanstring_length (n : nat) (s t r : string) :
  scanstring n s = Some (t, r) -> String.length r < String.length s.
Proof.
  revert s t r; induction n as [|n IH]; intros s t r; simpl; [discriminate|].
  destruct s as [|c s']; [discriminate|].
  destruct (nat_of_char c =? 34).
  { intros H; inversion H; subst; simpl; lia. }
  destruct (nat_of_char c =? 92).
  - destruct s' as [|e s'']; [discriminate|].
    assert (Hdec : forall decoded : option (string * string),
               (forall x y, decoded = Some (x, y) ->
                            String.length y <= String.length s'') ->
               match decoded with
               | Some (t0, r0) =>
                   match scanstring n r0 with
                   | Some (rest, r') => Some (t0 ++ rest, r')%string
                   | None => None
                   end
               | None => None
               end = Some (t, r) ->
               String.length r < String.length (String c (String e s''))).
    { intros [[t0 r0]|] Hle; [|discriminate].
      destruct (scanstring n r0) as [[rest r']|] eqn:E; [|discriminate].
      intros H; inversion H; subst.
      apply IH in E. specialize (Hle t0 r0 eq_refl). simpl; lia. }
    apply Hdec.
    destruct (Ascii.eqb e "u").
    + intros x y H; apply unicode_escape_length in H; lia.
    + destruct (simple_escape e); intros x y H; inversion H; subst; lia.
  - destruct (nat_of_char c <? 32); [discriminate|].
    destruct (scanstring n s') as [[rest r']|] eqn:E; [|discriminate].
    intros H; inversion H; subst. apply IH in E. simpl; lia.
Qed.


Lemma int_part_length (s ip r : string) :
  int_part s = Some (ip, r) -> String.length r < String.length s.
Proof.
  unfold int_part; destruct s as [|c s']; [discriminate|].
  destruct (Ascii.eqb c "0"); [intros H; inversion H; subst; simpl; lia|].
  destruct (isdigit c) eqn:Hd; [|discriminate].
  simpl; rewrite Hd.
  destruct (span_digits s') as [d' r'] eqn:E.
  intros H; inversion H; subst.
  apply span_digits_length in E. lia.
Qed.

Lemma frac_part_length (s : string) (f : option string) (r : string) :
  frac_part s = (f, r) -> String.length r <= String.length s.
Proof.
  unfold frac_part.
  destruct (startswith "." s); [|intros H; inversion H; subst; lia].
  destruct (span_digits (drop_chars 1 s)) as [fd r'] eqn:E.
  apply span_digits_length in E.
  pose proof (drop_chars_length 1 s).
  destruct (str_truthy fd); intros H'; inversion H'; subst; lia.
Qed.

Lemma exp_part_length (s : string) (e : option Z) (r : string) :
  exp_part s = (e, r) -> String.length r <= String.length s.
Proof.
  unfold exp_part.
  destruct s as [|c re]; [intros H; inversion H; subst; lia|].
  destruct (Ascii.eqb c "e" || Ascii.eqb c "E");
    [|intros H; inversion H; subst; lia].
  assert (Hsign : forall b re', String.length re' <= String.length re ->
            (let '(eneg, re0) := (b, re') in
             let '(ed, r0) := span_digits re0 in
             if str_truthy ed then (Some (cond_Zopp eneg (digits_value ed)), r0)
             else (None, String c re)) = (e, r) ->
            String.length r <= String.length (String c re)).
  { intros b re' Hle.
    destruct (span_digits re') as [ed r0] eqn:E.
    apply span_digits_length in E.
    destruct (str_truthy ed); intros H; inversion H; subst; simpl; lia. }
  pose proof (drop_chars_length 1 re).
  destruct (startswith "-" re); [now apply Hsign|].
  destruct (startswith "+" re); now apply Hsign.
Qed.

Lemma scan_number_length (s : string) (v : json) (r : string) :
  scan_number s = Some (v, r) -> String.length r < String.length s.
Proof.
  unfold scan_number.
  assert (Hbody : forall neg s1, String.length s1 <= String.length s ->
            match int_part s1 with
            | None => None
            | Some (ip, r0) =>
                let '(frac, r1) := frac_part r0 in
                let '(ex, r2) := exp_part r1 in
                match frac, ex with
                | None, None =>
                    if (max_str_digits <? String.length ip)%nat then None
                    else Some (JInt (cond_Zopp neg (digits_value ip)), r2)
                | _, _ =>
                    let fd := match frac with Some fd => fd | None => EmptyString end in
                    let e := match ex with Some e => e | None => 0%Z end in
                    Some (JFloat (float_of_decimal neg (digits_value (ip ++ fd))
                                    (e - Z.of_nat (String.length fd))), r2)
                end
            end = Some (v, r) ->
            String.length r < String.length s).
  { intros neg s1 Hle.
    destruct (int_part s1) as [[ip r0]|] eqn:Ei; [|discriminate].
    apply int_part_length in Ei.
    destruct (frac_part r0) as [frac r1] eqn:Ef; apply frac_part_length in Ef.
    destruct (exp_part r1) as [ex r2] eqn:Ee; apply exp_part_length in Ee.
    destruct frac, ex; try (intros H; inversion H; subst; lia).
    destruct (max_str_digits <? String.length ip); [discriminate|].
    intros H; inversion H; subst; lia. }
  pose proof (drop_chars_length 1 s).
  destruct (startswith "-" s); now apply Hbody.
Qed.


Lemma scanstring_enough_fuel (n : nat) :
  forall s m x,
    scanstring n s = Some x -> String.length s < m -> scanstring m s = Some x.
Proof.
  induction n as [|n IH]; intros s m x; [discriminate|].
  destruct m as [|m]; [lia|].
  cbn [scanstring].
  destruct s as [|c s']; [discriminate|].
  destruct (nat_of_char c =? 34); [auto|].
  destruct (nat_of_char c =? 92).
  - destruct s' as [|e s'']; [discriminate|].
    assert (Hdec : forall decoded : option (string * string),
               (forall t r, decoded = Some (t, r) ->
                            String.length r <= String.length s'') ->
               match decoded with
               | Some (t, r) =>
                   match scanstring n r with
                   | Some (rest, r') => Some (t ++ rest, r')%string
                   | None => None
                   end
               | None => None
               end = Some x ->
               String.length (String c (String e s'')) < S m ->
               match decoded with
               | Some (t, r) =>
                   match scanstring m r with
                   | Some (rest, r') => Some (t ++ rest, r')%string
                   | None => None
                   end
               | None => None
               end = Some x).
    { intros [[t r]|] Hle; [|discriminate].
      destruct (scanstring n r) as [[rest r']|] eqn:E; [|discriminate].
      intros H Hm. specialize (Hle t r eq_refl). cbn [String.length] in Hm.
      rewrite (IH r m (rest, r') E) by lia. exact H. }
    apply Hdec.
    destruct (Ascii.eqb e "u").
    + intros t r H; apply unicode_escape_length in H; lia.
    + destruct (simple_escape e); intros t r H; inversion H; subst; lia.
  - destruct (nat_of_char c <? 32); [discriminate|].
    destruct (scanstring n s') as [[rest r']|] eqn:E; [|discriminate].
    intros H Hm. cbn [String.length] in Hm.
    rewrite (IH s' m (rest, r') E) by lia. exact H.
Qed.

End DecoderLengths.

Section DecoderFuel.

Local Open Scope nat_scope.

Variables (items1 items2 : list json -> string -> option (list json * string)).
Variables (members1 members2 : list (string * json) -> string
                               -> option (list (string * json) * string)).
Variables (once1 once2 : string -> option (json * string)).

Lemma value_at_shrinks :
  (forall acc, shrinks (items1 acc)) ->
  (forall acc, shrinks (members1 acc)) ->
  shrinks (value_at items1 members1).
Proof.
  intros Hi Hm s x r; unfold value_at.
  destruct s as [|c s']; [discriminate|].
  pose proof (skip_ws_length s') as Hws.
  destruct (nat_of_char c =? 34).
  { destruct (scanstring (S (String.length s')) s') as [[t r0]|] eqn:E; [|discriminate].
    apply scanstring_length in E.
    intros H; inversion H; subst; simpl; lia. }
  destruct (Ascii.eqb c "{").
  { destruct (skip_ws s') as [|q r0]; [discriminate|]; simpl in Hws.
    destruct (Ascii.eqb q "}"); [intros H; inversion H; subst; simpl; lia|].
    destruct (nat_of_char q =? 34); [|discriminate].
    destruct (members1 [] r0) as [[d r']|] eqn:E; [|discriminate].
    apply Hm in E. intros H; inversion H; subst; simpl; lia. }
  destruct (Ascii.eqb c "[").
  { cbv zeta.
    pose proof (drop_chars_length 1 (skip_ws s')).
    set (t := drop_chars 1 (skip_ws s')) in *.
    destruct (startswith "]" (skip_ws s'));
      [intros H'; injection H' as <- <-; cbn [String.length]; lia|].
    destruct (items1 [] (skip_ws s')) as [[l r']|] eqn:E; [|discriminate].
    apply Hi in E. intros H'; injection H' as <- <-; cbn [String.length]; lia. }
  assert (Hdrop : forall n (v : json),
             Some (v, drop_chars (S n) (String c s')) = Some (x, r) ->
             String.length r < String.length (String c s')).
  { intros n v; cbn [drop_chars].
    pose proof (drop_chars_length n s').
    set (t := drop_chars n s') in *.
    intros H'; injection H' as <- <-; cbn [String.length]; lia. }
  destruct (startswith "null" (String c s')); [apply Hdrop|].
  destruct (startswith "true" (String c s')); [apply Hdrop|].
  destruct (startswith "false" (String c s')); [apply Hdrop|].
  destruct (scan_number (String c s')) as [[v r0]|] eqn:E.
  { apply scan_number_length in E. intros H; inversion H; subst; exact E. }
  destruct (startswith "NaN" (String c s')); [apply Hdrop|].
  destruct (startswith "Infinity" (String c s')); [apply Hdrop|].
  destruct (startswith "-Infinity" (String c s')); [apply Hdrop|discriminate].
Qed.

Lemma items_from_shrinks :
  shrinks once1 ->
  (forall acc, shrinks (items1 acc)) ->
  forall acc, shrinks (items_from once1 items1 acc).
Proof.
  intros Ho Hi acc s x r; unfold items_from.
  destruct (once1 s) as [[v r0]|] eqn:E; [|discriminate].
  apply Ho in E.
  pose proof (skip_ws_length r0) as Hws.
  destruct (skip_ws r0) as [|c r']; [discriminate|]; simpl in Hws.
  destruct (Ascii.eqb c "]"); [intros H; inversion H; subst; lia|].
  destruct (Ascii.eqb c ","); [|discriminate].
  intros H; apply Hi in H.
  pose proof (skip_ws_length r'). lia.
Qed.

Lemma members_from_shrinks :
  shrinks once1 ->
  (forall acc, shrinks (members1 acc)) ->
  forall acc, shrinks (members_from once1 members1 acc).
Proof.
  intros Ho Hm acc s x r; unfold members_from.
  destruct (scanstring (S (String.length s)) s) as [[k r0]|] eqn:Ek; [|discriminate].
  apply scanstring_length in Ek.
  pose proof (skip_ws_length r0) as Hws0.
  destruct (skip_ws r0) as [|c r1]; [discriminate|]; simpl in Hws0.
  destruct (Ascii.eqb c ":"); [|discriminate].
  pose proof (skip_ws_length r1) as Hws1.
  destruct (once1 (skip_ws r1)) as [[v r2]|] eqn:Ev; [|discriminate].
  apply Ho in Ev.
  pose proof (skip_ws_length r2) as Hws2.
  destruct (skip_ws r2) as [|c' r3]; [discriminate|]; simpl in Hws2.
  destruct (Ascii.eqb c' "}"); [intros H; inversion H; subst; lia|].
  destruct (Ascii.eqb c' ","); [|discriminate].
  pose proof (skip_ws_length r3) as Hws3.
  destruct (skip_ws r3) as [|q r4]; [discriminate|]; simpl in Hws3.
  destruct (nat_of_char q =? 34); [|discriminate].
  intros H; apply Hm in H. lia.
Qed.

(** A successful run stays successful when the parts it calls are replaced
    by parts that succeed wherever the old ones did on shorter text. *)
Lemma value_at_ext (s : string) (x : json * string) :
  (forall acc r y, String.length r < String.length s ->
                   items1 acc r = Some y -> items2 acc r = Some y) ->
  (forall acc r y, String.length r < String.length s ->
                   members1 acc r = Some y -> members2 acc r = Some y) ->
  value_at items1 members1 s = Some x ->
  value_at items2 members2 s = Some x.
Proof.
  intros Hi Hm; unfold value_at.
  destruct s as [|c s']; [discriminate|].
  pose proof (skip_ws_length s') as Hws.
  destruct (nat_of_char c =? 34); [auto|].
  destruct (Ascii.eqb c "{").
  { destruct (skip_ws s') as [|q r0]; [discriminate|]; simpl in Hws.
    destruct (Ascii.eqb q "}"); [auto|].
    destruct (nat_of_char q =? 34); [|discriminate].
    destruct (members1 [] r0) as [y|] eqn:E; [|discriminate].
    rewrite (Hm [] r0 y) by (simpl; lia || exact E). auto. }
  destruct (Ascii.eqb c "["); [|auto].
  cbv zeta.
  destruct (startswith "]" (skip_ws s')); [auto|].
  destruct (items1 [] (skip_ws s')) as [y|] eqn:E; [|discriminate].
  rewrite (Hi [] (skip_ws s') y) by (simpl; lia || exact E). auto.
Qed.

Lemma items_from_ext (acc : list json) (s : string) (x : list json * string) :
  shrinks once1 ->
  (forall y, once1 s = Some y -> once2 s = Some y) ->
  (forall acc' r y, String.length r < String.length s ->
                    items1 acc' r = Some y -> items2 acc' r = Some y) ->
  items_from once1 items1 acc s = Some x ->
  items_from once2 items2 acc s = Some x.
Proof.
  intros Hshr Ho Hi; unfold items_from.
  destruct (once1 s) as [[v r0]|] eqn:E; [|discriminate].
  rewrite (Ho _ eq_refl). apply Hshr in E.
  pose proof (skip_ws_length r0) as Hws.
  destruct (skip_ws r0) as [|c r']; [discriminate|]; simpl in Hws.
  destruct (Ascii.eqb c "]"); [auto|].
  destruct (Ascii.eqb c ","); [|discriminate].
  apply Hi. pose proof (skip_ws_length r'). lia.
Qed.

Lemma members_from_ext (acc : list (string * json)) (s : string)
      (x : list (string * json) * string) :
  shrinks once1 ->
  (forall r y, String.length r < String.length s ->
               once1 r = Some y -> once2 r = Some y) ->
  (forall acc' r y, String.length r < String.length s ->
                    members1 acc' r = Some y -> members2 acc' r = Some y) ->
  members_from once1 members1 acc s = Some x ->
  members_from once2 members2 acc s = Some x.
Proof.
  intros Hshr Ho Hm; unfold members_from.
  destruct (scanstring (S (String.length s)) s) as [[k r0]|] eqn:Ek; [|discriminate].
  apply scanstring_length in Ek.
  pose proof (skip_ws_length r0) as Hws0.
  destruct (skip_ws r0) as [|c r1]; [discriminate|]; simpl in Hws0.
  destruct (Ascii.eqb c ":"); [|discriminate].
  pose proof (skip_ws_length r1) as Hws1.
  destruct (once1 (skip_ws r1)) as [[v r2]|] eqn:Ev; [|discriminate].
  rewrite (Ho (skip_ws r1) (v, r2)) by (lia || exact Ev).
  apply Hshr in Ev.
  pose proof (skip_ws_length r2) as Hws2.
  destruct (skip_ws r2) as [|c' r3]; [discriminate|]; simpl in Hws2.
  destruct (Ascii.eqb c' "}"); [auto|].
  destruct (Ascii.eqb c' ","); [|discriminate].
  pose proof (skip_ws_length r3) as Hws3.
  destruct (skip_ws r3) as [|q r4]; [discriminate|]; simpl in Hws3.
  destruct (nat_of_char q =? 34); [|discriminate].
  apply Hm. lia.
Qed.

End DecoderFuel.

Section EnoughFuel.

Local Open Scope nat_scope.

(** Whatever the fuel, a successful scan consumes text. *)
Lemma scan_shrinks (fuel : nat) :
  shrinks (scan_once fuel)
  /\ (forall acc, shrinks (scan_items fuel acc))
  /\ (forall acc, shrinks (scan_members fuel acc)).
Proof.
  induction fuel as [|fuel (IHo & IHi & IHm)].
  - repeat split; intros; intros s x r H; discriminate H.
  - split; [|split]; cbn [scan_once scan_items scan_members].
    + now apply value_at_shrinks.
    + now apply items_from_shrinks.
    + now apply members_from_shrinks.
Qed.

(** What some fuel can decode, any fuel above twice the length of the text
    decodes to the same value. *)
Lemma scan_enough_fuel (fuel' : nat) :
  (forall s fuel x,
      scan_once fuel' s = Some x -> 2 * String.length s + 1 <= fuel ->
      scan_once fuel s = Some x)
  /\ (forall acc s fuel x,
         scan_items fuel' acc s = Some x -> 2 * String.length s + 2 <= fuel ->
         scan_items fuel acc s = Some x)
  /\ (forall acc s fuel x,
         scan_members fuel' acc s = Some x -> 2 * String.length s + 2 <= fuel ->
         scan_members fuel acc s = Some x).
Proof.
  induction fuel' as [|fuel' (IHo & IHi & IHm)].
  - repeat split; intros; discriminate.
  - destruct (scan_shrinks fuel') as (Hso & _ & _).
    split; [|split].
    + intros s [|fuel] x H Hle; [lia|].
      cbn [scan_once] in *.
      apply (value_at_ext (scan_items fuel') (scan_items fuel)
                          (scan_members fuel') (scan_members fuel) s x);
        [| |exact H].
      * intros acc r y Hr Hy. apply (IHi acc r fuel y Hy). lia.
      * intros acc r y Hr Hy. apply (IHm acc r fuel y Hy). lia.
    + intros acc s [|fuel] x H Hle; [lia|].
      cbn [scan_items] in *.
      apply (items_from_ext (scan_items fuel') (scan_items fuel)
                            (scan_once fuel') (scan_once fuel) acc s x);
        [exact Hso| | |exact H].
      * intros y Hy. apply (IHo s fuel y Hy). lia.
      * intros acc' r y Hr Hy. apply (IHi acc' r fuel y Hy). lia.
    + intros acc s [|fuel] x H Hle; [lia|].
      cbn [scan_members] in *.
      apply (members_from_ext (scan_members fuel') (scan_members fuel)
                              (scan_once fuel') (scan_once fuel) acc s x);
        [exact Hso| | |exact H].
      * intros r y Hr Hy. apply (IHo r fuel y Hy). lia.
      * intros acc' r y Hr Hy. apply (IHm acc' r fuel y Hy). lia.
Qed.

(** The fuel [json_loads] gives is never the reason for a failure: what any
    fuel decodes, [json_loads] decodes. *)
Theorem json_loads_enough_fuel (s : string) (fuel : nat) (v : json) (r : string) :
  scan_once fuel (skip_ws s) = Some (v, r) ->
  skip_ws r = EmptyString ->
  json_loads s = Ok v.
Proof.
  intros H Hr; unfold json_loads.
  destruct (scan_enough_fuel fuel) as (Ho & _ & _).
  rewrite (Ho (skip_ws s) (2 * String.length (skip_ws s) + 2) (v, r) H) by lia.
  now rewrite Hr.
Qed.

End EnoughFuel.

(** * Facts about text *)

Section StringFacts.

Lemma append_nil_r (s : string) : s ++ EmptyString = s.
Proof. induction s as [|c s IH]; simpl; [reflexivity | now rewrite IH]. Qed.

Lemma append_assoc (a b c : string) : (a ++ b) ++ c = a ++ (b ++ c).
Proof. induction a as [|x a IH]; simpl; [reflexivity | now rewrite IH]. Qed.

Lemma append_cons_nonempty (a : string) (c : ascii) (b : string) :
  a ++ String c b <> EmptyString.
Proof. destruct a; simpl; discriminate. Qed.






Lemma lstrip_head (c : ascii) (s : string) :
  isspace c = false -> lstrip (String c s) = String c s.
Proof. intros H; simpl; now rewrite H. Qed.




End StringFacts.

(** * The response interpreter ([classify_text], lines 58-73) *)

Section Interpreter.

Variable out : string.
Variable label_list : list string.


Lemma interpret_fallback (e : exn) :
  Demo.parse_strict out = Raise e ->
  Demo.interpret out label_list = Demo.fallback out label_list.
Proof. intros H; unfold Demo.interpret; now rewrite H. Qed.

Lemma interpret_parsed (lc : string * float) :
  Demo.parse_strict out = Ok lc -> Demo.interpret out label_list = lc.
Proof. intros H; unfold Demo.interpret; now rewrite H. Qed.

End Interpreter.

Section ScanLabels.

Variable low : string.



(** Whatever the labels, the loop ends in one of the two ways above. *)
Lemma scan_labels_cases (labels : list string) (label : string) (confidence : float) :
  Demo.scan_labels low labels label confidence = (label, confidence)
  \/ exists L, In L labels
               /\ Demo.scan_labels low labels label confidence = (L, 0.6%float).
Proof.
  induction labels as [|P labels IH]; simpl; [now left|].
  destruct (str_in (lower P) low).
  - right; exists P; split; [now left | reflexivity].
  - destruct IH as [IH | (L & HIn & IH)]; [now left|].
    right; exists L; split; [now right | exact IH].
Qed.

End ScanLabels.



(** * [classify_text] as a whole *)

Section ClassifyText.

Variables model text : string.
Variable label_list : list string.
Variable few_shots : option (list Demo.shot).
Variable w : world.

(** The call, as a function of the server's answer to its request. *)
Lemma classify_text_result :
  fst (Demo.classify_text model text label_list few_shots w) =
  match (let* resp := server w (sent_request model text label_list few_shots) in
         Demo.check_status resp) with
  | Raise e => Ok ("ERROR", 0.0%float, "Request failed: " ++ exn_str e)
  | Ok resp =>
      let* out := Demo.response_text resp in
      let '(label, confidence) := Demo.interpret out label_list in
      Ok (label, confidence, out)
  end.
Proof.
  unfold Demo.classify_text, Demo.post_generate, requests_post.
  fold (sent_request model text label_list few_shots).
  destruct (let* resp := server w _ in Demo.check_status resp); reflexivity.
Qed.

Lemma classify_text_world :
  snd (Demo.classify_text model text label_list few_shots w) =
  {| server := server w;
     sent := (sent w ++ [sent_request model text label_list few_shots])%list |}.
Proof.
  unfold Demo.classify_text, Demo.post_generate, requests_post.
  fold (sent_request model text label_list few_shots).
  destruct (let* resp := server w _ in Demo.check_status resp); reflexivity.
Qed.

(** Statuses outside 400..599 pass both checks. *)
Lemma check_status_passes (resp : response) :
  ~ (400 <= status_code resp < 600) -> Demo.check_status resp = Ok resp.
Proof.
  intros H; unfold Demo.check_status, raise_for_status.
  destruct (status_code resp =? 404) eqn:E404; [apply Z.eqb_eq in E404; lia|].
  destruct ((400 <=? status_code resp) && (status_code resp <? 500)) eqn:E4;
    [apply andb_true_iff in E4; lia|].
  destruct ((500 <=? status_code resp) && (status_code resp <? 600)) eqn:E5;
    [apply andb_true_iff in E5; lia|].
  reflexivity.
Qed.

(** Statuses 400..599 fail the second check, if not the first. *)
Lemma raise_for_status_raises (resp : response) :
  400 <= status_code resp < 600 ->
  raise_for_status resp = Raise (HTTPError (http_error_text resp)).
Proof.
  intros H; unfold raise_for_status, http_error_text.
  destruct (status_code resp <? 500) eqn:E; [apply Z.ltb_lt in E | apply Z.ltb_ge in E].
  - replace (400 <=? status_code resp) with true by (symmetry; apply Z.leb_le; lia).
    reflexivity.
  - replace (500 <=? status_code resp) with true by (symmetry; apply Z.leb_le; lia).
    replace (status_code resp <? 600) with true by (symmetry; apply Z.ltb_lt; lia).
    rewrite andb_false_r. reflexivity.
Qed.

(** A failed request, in any of the three ways, reaches the [except]
    clause with the description of the failure. *)
Lemma failure_reaches_except (description : string) :
  request_fails (server w (sent_request model text label_list few_shots)) description ->
  exists e,
    (let* resp := server w (sent_request model text label_list few_shots) in
     Demo.check_status resp) = Raise e
    /\ exn_str e = description.
Proof.
  intros H; inversion H as [e He | resp H404 He | resp Hn404 Hrange He].
  - exists e; split; reflexivity.
  - exists (RuntimeError Demo.not_found_message); split; [|reflexivity].
    simpl; unfold Demo.check_status; rewrite H404; reflexivity.
  - exists (HTTPError (http_error_text resp)); split; [|reflexivity].
    simpl; unfold Demo.check_status.
    destruct (status_code resp =? 404) eqn:E; [apply Z.eqb_eq in E; contradiction|].
    simpl; rewrite (raise_for_status_raises resp Hrange); reflexivity.
Qed.

End ClassifyText.

(** C7: every call to [classify_text] issues one POST, to
    [<base>/api/generate], whose JSON body is the object with the keys model,
    prompt, options (temperature 0.0 and num_ctx 2048) and stream (false), with
    a timeout of 120 seconds. *)
Theorem C7_one_post_to_generate
        (model text : string) (label_list : list string)
        (few_shots : option (list Demo.shot)) (w : world) :
  sent (snd (Demo.classify_text model text label_list few_shots w)) =
  (sent w ++
   [{| req_url := "http://127.0.0.1:11434/api/generate";
       req_json :=
         JObject [("model", JString model);
                  ("prompt", JString (Demo.build_prompt
                                        text label_list (Demo.default_shots few_shots)));
                  ("options", JObject [("temperature", JFloat 0.0);
                                       ("num_ctx", JInt 2048)]);
                  ("stream", JBool false)];
       req_timeout := 120 |}])%list.
Proof. rewrite classify_text_world. reflexivity. Qed.



(** C2 (as the code has it): when [requests.post] raises, and when the reply
    has status 404 or any other status from 400 to 599, [classify_text]
    returns ("ERROR", 0.0, "Request failed: " followed by the description of the
    failure) and raises nothing; for a 404 that text names the configured base
    address. *)
Theorem C2_failures_become_error_results
        (model text : string) (label_list : list string)
        (few_shots : option (list Demo.shot)) (w : world) (description : string)
        (Hfails : request_fails
                    (server w (sent_request model text label_list few_shots))
                    description) :
  fst (Demo.classify_text model text label_list few_shots w)
  = Ok ("ERROR", 0.0%float, "Request failed: " ++ description)
  /\ (forall resp,
         server w (sent_request model text label_list few_shots) = Ok resp ->
         status_code resp = 404 ->
         str_in Demo.OLLAMA_BASE ("Request failed: " ++ description) = true).
Proof.
  split.
  - rewrite classify_text_result.
    destruct (failure_reaches_except model text label_list few_shots w description Hfails)
      as (e & -> & <-).
    reflexivity.
  - intros resp Hresp H404.
    rewrite Hresp in Hfails.
    inversion Hfails as [ | resp' _ Hd | resp' Hn404 _ Hd]; subst.
    + vm_compute; reflexivity.
    + contradiction.
Qed.

Lemma C2_witness :
  request_fails
    (server (always (Ok reply_404)) (sent_request "llama3.1:8b" "hello" two_labels None))
    Demo.not_found_message
  /\ fst (Demo.classify_text "llama3.1:8b" "hello" two_labels None (always (Ok reply_404)))
     = Ok ("ERROR", 0.0%float, "Request failed: " ++ Demo.not_found_message)
  /\ str_in Demo.OLLAMA_BASE ("Request failed: " ++ Demo.not_found_message) = true.
Proof.
  assert (H : request_fails
                (server (always (Ok reply_404))
                        (sent_request "llama3.1:8b" "hello" two_labels None))
                Demo.not_found_message)
    by (apply (fails_not_found reply_404); reflexivity).
  split; [exact H|].
  destruct (C2_failures_become_error_results
              "llama3.1:8b" "hello" two_labels None (always (Ok reply_404))
              Demo.not_found_message H) as (Hres & Hbase).
  split; [exact Hres|].
  apply (Hbase reply_404); reflexivity.
Defined.

(** C2, as stated, fails: a reply of status 304 is not a success, yet the
    call does not return the "ERROR" triple; it goes on to decode the empty
    body and the decoding error escapes to the caller. *)
Lemma C2_counterexample :
  ~ (200 <= status_code reply_304 < 300)
  /\ fst (Demo.classify_text "llama3.1:8b" "hello" two_labels None (always (Ok reply_304)))
     = Raise (RequestsJSONDecodeError "Expecting value")
  /\ ~ (exists raw,
           fst (Demo.classify_text "llama3.1:8b" "hello" two_labels None
                                   (always (Ok reply_304)))
           = Ok ("ERROR", 0.0%float, raw)).
Proof.
  assert (H : fst (Demo.classify_text "llama3.1:8b" "hello" two_labels None
                                      (always (Ok reply_304)))
              = Raise (RequestsJSONDecodeError "Expecting value"))
    by (vm_compute; reflexivity).
  split; [simpl; lia|]. split; [exact H|].
  intros (raw & Hraw). rewrite H in Hraw. discriminate.
Qed.




(** C1 (as the code has it): a result that [classify_text] returns is the
    "ERROR" triple with confidence 0.0, or comes from the keyword fallback and
    then holds a label of the caller with confidence 0.6 or "Other" with
    confidence 0.3, or holds the label and confidence decoded from the model's
    JSON, which are checked against nothing.  In the first two cases the label
    is a member of the label set or a sentinel and the confidence lies in
    [0,1]. *)
Theorem C1_result_shape
        (model text : string) (label_list : list string)
        (few_shots : option (list Demo.shot)) (w : world)
        (label : string) (confidence : float) (raw : string)
        (Hret : fst (Demo.classify_text model text label_list few_shots w)
                = Ok (label, confidence, raw)) :
  Demo.parse_strict raw = Ok (label, confidence)
  \/ (((label = "ERROR" /\ confidence = 0.0%float)
       \/ (In label label_list /\ confidence = 0.6%float)
       \/ (label = "Other" /\ confidence = 0.3%float))
      /\ label_allowed label_list label
      /\ in_unit_interval confidence = true).
Proof.
  rewrite classify_text_result in Hret.
  destruct (let* resp := server w _ in Demo.check_status resp) as [resp | e].
  - destruct (Demo.response_text resp) as [out | e]; [|discriminate].
    simpl in Hret.
    destruct (Demo.parse_strict out) as [lc | e] eqn:Hp.
    + rewrite (interpret_parsed out label_list lc Hp) in Hret.
      destruct lc as [l c]; inversion Hret; subst; now left.
    + rewrite (interpret_fallback out label_list e Hp) in Hret.
      unfold Demo.fallback in Hret.
      destruct (scan_labels_cases (lower out) label_list "Other" 0.3%float)
        as [Hs | (L & HIn & Hs)]; rewrite Hs in Hret; inversion Hret; subst; right.
      * split; [right; right; now split|].
        split; [right; now left | reflexivity].
      * split; [right; left; now split|].
        split; [now left | reflexivity].
  - inversion Hret; subst; right.
    split; [left; now split|].
    split; [right; now right | reflexivity].
Qed.

Lemma C1_witness :
  fst (Demo.classify_text "llama3.1:8b" "hello" two_labels None
                          (always (Ok reply_padded_spam)))
  = Ok ("Spam", 0.6%float, "Spam")
  /\ (Demo.parse_strict "Spam" = Ok ("Spam", 0.6%float)
      \/ (((("Spam" : string) = "ERROR" /\ 0.6%float = 0.0%float)
           \/ (In ("Spam" : string) two_labels /\ 0.6%float = 0.6%float)
           \/ (("Spam" : string) = "Other" /\ 0.6%float = 0.3%float))
          /\ label_allowed two_labels "Spam"
          /\ in_unit_interval 0.6%float = true)).
Proof.
  assert (H : fst (Demo.classify_text "llama3.1:8b" "hello" two_labels None
                                      (always (Ok reply_padded_spam)))
              = Ok ("Spam", 0.6%float, "Spam")) by (vm_compute; reflexivity).
  split; [exact H|].
  exact (C1_result_shape "llama3.1:8b" "hello" two_labels None
                         (always (Ok reply_padded_spam)) "Spam" 0.6%float "Spam" H).
Defined.

(** C1, as stated, fails: when the model answers
    [{"label":"Foo","confidence":7}] the call returns the label "Foo", which
    is neither offered nor a sentinel, with the confidence 7.0. *)
Lemma C1_counterexample :
  Demo.response_text reply_foo_7
  = Ok ("{" ++ quoted "label" ++ ":" ++ quoted "Foo" ++ ","
            ++ quoted "confidence" ++ ":7}")
  /\ fst (Demo.classify_text "llama3.1:8b" "hello" two_labels None
                             (always (Ok reply_foo_7)))
     = Ok ("Foo", 7%float,
           "{" ++ quoted "label" ++ ":" ++ quoted "Foo" ++ ","
               ++ quoted "confidence" ++ ":7}")
  /\ ~ label_allowed two_labels "Foo"
  /\ in_unit_interval 7%float = false.
Proof.
  split; [vm_compute; reflexivity|]. split; [vm_compute; reflexivity|].
  split; [|reflexivity].
  intros [[H | [H | []]] | [H | H]]; discriminate.
Qed.




(** * [repr] of a label *)

Section Repr.












End Repr.

(** * The prompt builder ([classify_text], lines 24-34) *)

Section Prompt.

Variable text : string.
Variable label_list : list string.
Variable few_shots : list Demo.shot.






End Prompt.




(** * Saving labelled rows ([demo.py], lines 149-171) *)

Section Saving.

Variable csv_path : string.



End Saving.



(** * The captioning page ([image.py]) *)

Section Captioning.

Variable prompt : string.
Variable img : ImageApp.image.
Variable w : world.


Lemma raise_for_status_ok (resp : response) :
  200 <= status_code resp < 300 -> raise_for_status resp = Ok tt.
Proof.
  intros H; unfold raise_for_status.
  destruct ((400 <=? status_code resp) && (status_code resp <? 500)) eqn:E4;
    [apply andb_true_iff in E4; lia|].
  destruct ((500 <=? status_code resp) && (status_code resp <? 600)) eqn:E5;
    [apply andb_true_iff in E5; lia|].
  reflexivity.
Qed.


End Captioning.



(** * The sidebar ([demo.py], lines 77-94) *)

Section Stripping.

Lemma lstrip_length (s : string) : (String.length (lstrip s) <= String.length s)%nat.
Proof.
  induction s as [|c s IH]; simpl; [lia|].
  destruct (isspace c); simpl; lia.
Qed.

(** A text that [lstrip] leaves alone does not start with whitespace. *)
Lemma lstrip_fixed_head (c : ascii) (s : string) :
  lstrip (String c s) = String c s -> isspace c = false.
Proof.
  simpl; destruct (isspace c); [|reflexivity].
  intros H; pose proof (lstrip_length s) as Hl; rewrite H in Hl; simpl in Hl; lia.
Qed.

Lemma lstrip_idem (s : string) : lstrip (lstrip s) = lstrip s.
Proof.
  induction s as [|c s IH]; simpl; [reflexivity|].
  destruct (isspace c) eqn:E; [exact IH | now apply lstrip_head].
Qed.

Lemma rstrip_idem (s : string) : rstrip (rstrip s) = rstrip s.
Proof.
  induction s as [|c s IH]; [reflexivity|].
  cbn [rstrip].
  destruct (rstrip s) as [|c' r] eqn:E.
  - destruct (isspace c) eqn:Ec; [reflexivity|].
    cbn [rstrip]. now rewrite Ec.
  - cbn [rstrip] in *. now rewrite IH.
Qed.

(** Stripping on the right does not uncover whitespace on the left. *)
Lemma lstrip_rstrip (s : string) : lstrip s = s -> lstrip (rstrip s) = rstrip s.
Proof.
  destruct s as [|c s]; [reflexivity|].
  intros H; apply lstrip_fixed_head in H.
  cbn [rstrip].
  destruct (rstrip s); [rewrite H|]; now apply lstrip_head.
Qed.

(** What [strip] returns has whitespace at neither end. *)
Lemma strip_clean (s : string) :
  lstrip (strip s) = strip s /\ rstrip (strip s) = strip s.
Proof.
  unfold strip; split.
  - apply lstrip_rstrip, lstrip_idem.
  - apply rstrip_idem.
Qed.

Lemma strip_idem (s : string) : strip (strip s) = strip s.
Proof.
  destruct (strip_clean s) as [Hl Hr].
  unfold strip at 1. now rewrite Hl, Hr.
Qed.


End Stripping.

Section Commas.

Lemma str_in_comma_cons (c : ascii) (s : string) :
  str_in "," (String c s) = Ascii.eqb c "," || str_in "," s.
Proof.
  cbn [str_in startswith]. now rewrite andb_true_r, Ascii.eqb_sym.
Qed.

Lemma lstrip_no_comma (s : string) :
  str_in "," s = false -> str_in "," (lstrip s) = false.
Proof.
  induction s as [|c s IH]; [reflexivity|].
  intros H; cbn [lstrip].
  destruct (isspace c); [|exact H].
  rewrite str_in_comma_cons in H; apply orb_false_iff in H; now apply IH.
Qed.

Lemma rstrip_no_comma (s : string) :
  str_in "," s = false -> str_in "," (rstrip s) = false.
Proof.
  induction s as [|c s IH]; [reflexivity|].
  rewrite str_in_comma_cons; intros H; apply orb_false_iff in H.
  destruct H as [Hc Hs]; specialize (IH Hs).
  cbn [rstrip].
  destruct (rstrip s) as [|c' r].
  - destruct (isspace c); [reflexivity|].
    now rewrite str_in_comma_cons, Hc.
  - now rewrite str_in_comma_cons, Hc, IH.
Qed.

Lemma strip_no_comma (s : string) :
  str_in "," s = false -> str_in "," (strip s) = false.
Proof. intros H; now apply rstrip_no_comma, lstrip_no_comma. Qed.

Lemma split_comma_nonempty (s : string) : split_comma s <> [].
Proof.
  induction s as [|c s IH]; cbn [split_comma]; [discriminate|].
  destruct (Ascii.eqb c ","); [discriminate|].
  destruct (split_comma s); [contradiction | discriminate].
Qed.

(** No piece of a split holds a comma. *)
Lemma split_comma_pieces (s p : string) :
  In p (split_comma s) -> str_in "," p = false.
Proof.
  revert p; induction s as [|c s IH]; intros p; cbn [split_comma].
  - intros [<- | []]; reflexivity.
  - destruct (Ascii.eqb c ",") eqn:Ec.
    + intros [<- | H]; [reflexivity | now apply IH].
    + destruct (split_comma s) as [|q qs] eqn:E;
        [now destruct (split_comma_nonempty s)|].
      intros [<- | H].
      * rewrite str_in_comma_cons, Ec. apply IH; now left.
      * apply IH; now right.
Qed.




End Commas.

(** X1: every label read from the sidebar is non-empty, has whitespace at
    neither end and holds no comma. *)
Theorem sidebar_labels_clean (labels_csv L : string)
        (HL : In L (DemoPage.label_list_of labels_csv)) :
  L <> EmptyString
  /\ lstrip L = L /\ rstrip L = L
  /\ str_in "," L = false.
Proof.
  unfold DemoPage.label_list_of in HL.
  apply in_map_iff in HL; destruct HL as (x & <- & Hx).
  apply filter_In in Hx; destruct Hx as [Hpiece Hne].
  destruct (strip_clean x) as [Hl Hr].
  split; [intros E; rewrite E in Hne; discriminate|].
  split; [exact Hl|]. split; [exact Hr|].
  apply strip_no_comma, (split_comma_pieces labels_csv x Hpiece).
Qed.

Lemma sidebar_labels_clean_witness :
  In "Technical" (DemoPage.label_list_of " Billing , ,Technical,,  Spam ")
  /\ "Technical" <> EmptyString
  /\ lstrip "Technical" = "Technical" /\ rstrip "Technical" = "Technical"
  /\ str_in "," "Technical" = false.
Proof.
  assert (H : In "Technical" (DemoPage.label_list_of " Billing , ,Technical,,  Spam "))
    by (vm_compute; right; left; reflexivity).
  split; [exact H|].
  exact (sidebar_labels_clean " Billing , ,Technical,,  Spam " "Technical" H).
Defined.



(** * More on [classify_text] *)

Section Unreadable.

Variables model text : string.
Variable label_list : list string.
Variable few_shots : option (list Demo.shot).
Variable w : world.
Variable resp : response.

Hypothesis Hreply : server w (sent_request model text label_list few_shots) = Ok resp.
Hypothesis Hstatus : 200 <= status_code resp < 300.

(** On a success status the call is what it makes of the body. *)
Lemma classify_text_success :
  fst (Demo.classify_text model text label_list few_shots w)
  = let* out := Demo.response_text resp in
    let '(label, confidence) := Demo.interpret out label_list in
    Ok (label, confidence, out).
Proof.
  rewrite classify_text_result, Hreply. cbn [bind].
  rewrite check_status_passes by lia. reflexivity.
Qed.

End Unreadable.

(** X3: line 56 stands outside both [try] blocks, so when a reply with a
    success status cannot be read, [classify_text] raises to its caller: the
    body is not JSON, or is JSON but not an object, or holds a "response"
    that is not a string. *)
Theorem classify_text_raises_on_unreadable_reply
        (model text : string) (label_list : list string)
        (few_shots : option (list Demo.shot)) (w : world) (resp : response)
        (Hreply : server w (sent_request model text label_list few_shots) = Ok resp)
        (Hstatus : 200 <= status_code resp < 300)
        (Hbad : (exists e, json_loads (resp_text resp) = Raise e)
                \/ (exists v, json_loads (resp_text resp) = Ok v
                              /\ forall d, v <> JObject d)
                \/ (exists d v, json_loads (resp_text resp) = Ok (JObject d)
                                /\ dict_get "response" d = Some v
                                /\ forall s, v <> JString s)) :
  exists e, fst (Demo.classify_text model text label_list few_shots w) = Raise e.
Proof.
  rewrite (classify_text_success model text label_list few_shots w resp Hreply Hstatus).
  unfold Demo.response_text, response_json.
  destruct Hbad as [(e & ->) | [(v & -> & Hv) | (d & v & -> & Hd & Hv)]].
  - eexists; reflexivity.
  - destruct v; try (eexists; reflexivity).
    now destruct (Hv members).
  - cbn [bind get_method]. rewrite Hd.
    destruct v; try (eexists; reflexivity).
    now destruct (Hv s).
Qed.

Lemma classify_text_raises_on_unreadable_reply_witness :
  server (always (Ok reply_null_response))
         (sent_request "llama3.1:8b" "hello" two_labels None)
  = Ok reply_null_response
  /\ json_loads (resp_text reply_null_response) = Ok (JObject [("response", JNull)])
  /\ exists e, fst (Demo.classify_text "llama3.1:8b" "hello" two_labels None
                                       (always (Ok reply_null_response)))
               = Raise e.
Proof.
  split; [reflexivity|]. split; [vm_compute; reflexivity|].
  apply (classify_text_raises_on_unreadable_reply
           "llama3.1:8b" "hello" two_labels None (always (Ok reply_null_response))
           reply_null_response).
  - reflexivity.
  - simpl; lia.
  - right; right. exists [("response", JNull)], JNull.
    split; [vm_compute; reflexivity|]. split; [reflexivity | discriminate].
Defined.

(** X4: model text that is JSON but not an object (a quoted string, a list,
    a number, true, false, null) has no fields to read and is handled by the
    keyword fallback. *)
Theorem interpret_non_object_falls_back
        (out : string) (label_list : list string) (v : json)
        (Hjson : json_loads out = Ok v)
        (Hnot : forall d, v <> JObject d) :
  Demo.interpret out label_list = Demo.fallback out label_list.
Proof.
  assert (H : exists e, Demo.parse_strict out = Raise e).
  { unfold Demo.parse_strict; rewrite Hjson.
    destruct v; try (eexists; reflexivity).
    now destruct (Hnot members). }
  destruct H as (e & He). now apply (interpret_fallback out label_list e).
Qed.

Lemma interpret_non_object_falls_back_witness :
  json_loads (quoted "Billing") = Ok (JString "Billing")
  /\ Demo.interpret (quoted "Billing") two_labels
     = Demo.fallback (quoted "Billing") two_labels
  /\ Demo.fallback (quoted "Billing") two_labels = ("Billing", 0.6%float).
Proof.
  assert (H : json_loads (quoted "Billing") = Ok (JString "Billing"))
    by (vm_compute; reflexivity).
  split; [exact H|].
  split; [|vm_compute; reflexivity].
  apply (interpret_non_object_falls_back (quoted "Billing") two_labels
                                         (JString "Billing") H).
  discriminate.
Defined.



Lemma str_in_empty_sub (s : string) : str_in EmptyString s = true.
Proof. destruct s; reflexivity. Qed.

Lemma scan_labels_with_empty (low : string) (labels : list string)
      (label : string) (confidence : float) :
  In EmptyString labels ->
  exists L, In L labels
            /\ Demo.scan_labels low labels label confidence = (L, 0.6%float).
Proof.
  induction labels as [|P rest IH]; intros Hempty; [destruct Hempty|].
  cbn [Demo.scan_labels].
  destruct (str_in (lower P) low) eqn:E.
  - exists P; split; [now left | reflexivity].
  - destruct Hempty as [-> | Hrest].
    + cbn [lower] in E. rewrite str_in_empty_sub in E. discriminate.
    + destruct (IH Hrest) as (L & HL & Hs).
      exists L; split; [now right | exact Hs].
Qed.

(** X6: an empty label matches every text, so when the label list holds
    one, the fallback never answers "Other" with 0.3: its confidence is 0.6
    and its label is one of the list. *)
Theorem fallback_with_empty_label
        (out : string) (label_list : list string)
        (Hempty : In EmptyString label_list) :
  snd (Demo.fallback out label_list) = 0.6%float
  /\ In (fst (Demo.fallback out label_list)) label_list.
Proof.
  unfold Demo.fallback.
  destruct (scan_labels_with_empty (lower out) label_list "Other" 0.3%float Hempty)
    as (L & HL & ->).
  split; [reflexivity | exact HL].
Qed.

Lemma fallback_with_empty_label_witness :
  In EmptyString ["Billing"; EmptyString; "Spam"]
  /\ snd (Demo.fallback "no label named here" ["Billing"; EmptyString; "Spam"])
     = 0.6%float
  /\ In (fst (Demo.fallback "no label named here" ["Billing"; EmptyString; "Spam"]))
        ["Billing"; EmptyString; "Spam"].
Proof.
  assert (H : In EmptyString ["Billing"; EmptyString; "Spam"])
    by (right; left; reflexivity).
  split; [exact H|].
  exact (fallback_with_empty_label "no label named here"
                                   ["Billing"; EmptyString; "Spam"] H).
Defined.

(** * The first tab ([demo.py], lines 99-116) *)






(** * More on saving ([demo.py], lines 149-171) *)

Section CsvRows.

Lemma read_plain_app (f rest : string) :
  needs_quotes f = false -> after_field rest ->
  read_plain (f ++ rest) = (f, rest).
Proof.
  intros Hf (c & r & -> & Hc & _).
  induction f as [|a f IH]; cbn [String.append read_plain].
  - now rewrite Hc.
  - cbn [needs_quotes] in Hf. apply orb_false_iff in Hf; destruct Hf as [Ha Hf].
    rewrite Ha, (IH Hf). reflexivity.
Qed.

Lemma read_quoted_app (f rest : string) :
  after_field rest ->
  read_quoted (double_quotes f ++ DQ ++ rest) = Some (f, rest).
Proof.
  intros (c & r & -> & _ & Hc).
  induction f as [|a f IH]; cbn [double_quotes String.append].
  - unfold DQ; cbn [String.append read_quoted].
    change (is_dq (ascii_of_nat 34)) with true. cbn iota. now rewrite Hc.
  - destruct (nat_of_char a =? 34)%nat eqn:Ea.
    + cbn [String.append read_quoted]. unfold is_dq at 1 2; rewrite Ea.
      now rewrite IH.
    + cbn [String.append read_quoted]. unfold is_dq at 1; rewrite Ea.
      now rewrite IH.
Qed.

Lemma needs_quotes_head (a : ascii) (f : string) :
  needs_quotes (String a f) = false -> is_dq a = false.
Proof.
  cbn [needs_quotes]; intros H; apply orb_false_iff in H; destruct H as [Ha _].
  unfold csv_special in Ha. unfold is_dq.
  destruct (nat_of_char a =? 34)%nat; [|reflexivity].
  rewrite orb_true_r in Ha; discriminate.
Qed.

(** Reading undoes writing, for one field followed by more of the row. *)
Lemma read_field_csv_field (f rest : string) :
  after_field rest ->
  read_field (csv_field f ++ rest) = Some (f, rest).
Proof.
  intros Hrest; unfold csv_field.
  destruct (needs_quotes f) eqn:Hq.
  - unfold DQ at 1. cbn [String.append read_field].
    change (is_dq (ascii_of_nat 34)) with true. cbn iota.
    rewrite append_assoc. now apply read_quoted_app.
  - destruct f as [|a f].
    + destruct Hrest as (c & r & -> & Hc & Hd).
      cbn [String.append read_field]. rewrite Hd.
      cbn [read_plain]. now rewrite Hc.
    + pose proof (needs_quotes_head a f Hq) as Ha.
      change (String a f ++ rest) with (String a (f ++ rest)).
      cbn [read_field]. rewrite Ha.
      change (String a (f ++ rest)) with (String a f ++ rest).
      now rewrite read_plain_app.
Qed.

Lemma after_field_comma (s : string) : after_field ("," ++ s).
Proof. exists ","%char, s; repeat split. Qed.

Lemma after_field_crlf : after_field (CR ++ LF).
Proof. exists (ascii_of_nat 13), LF; repeat split. Qed.

(** Two lists of as many fields that are written alike are one list. *)
Lemma joined_fields_inj (l1 l2 : list string) (rest : string) :
  after_field rest ->
  length l1 = length l2 ->
  join "," (map csv_field l1) ++ rest = join "," (map csv_field l2) ++ rest ->
  l1 = l2.
Proof.
  intros Hrest; revert l2; induction l1 as [|a [|b t] IH]; intros l2 Hlen H.
  - destruct l2; [reflexivity | discriminate].
  - destruct l2 as [|a2 [|b2 t2]]; try discriminate.
    cbn [map join] in H.
    apply (f_equal read_field) in H.
    rewrite !read_field_csv_field in H by exact Hrest.
    now inversion H.
  - destruct l2 as [|a2 [|b2 t2]]; try discriminate.
    change (join "," (map csv_field (a :: b :: t)))
      with (csv_field a ++ "," ++ join "," (map csv_field (b :: t))) in H.
    change (join "," (map csv_field (a2 :: b2 :: t2)))
      with (csv_field a2 ++ "," ++ join "," (map csv_field (b2 :: t2))) in H.
    rewrite !append_assoc in H.
    apply (f_equal read_field) in H.
    rewrite !read_field_csv_field in H by apply after_field_comma.
    injection H as Ha Htail. subst a2.
    f_equal. apply IH; [simpl in Hlen |- *; lia | exact Htail].
Qed.

End CsvRows.

(** X10: the quoting loses nothing: two records of as many fields that are
    written as the same row are the same record. *)
Theorem csv_row_injective (l1 l2 : list string)
        (Hlen : length l1 = length l2)
        (Hrow : csv_row l1 = csv_row l2) :
  l1 = l2.
Proof.
  unfold csv_row in Hrow.
  exact (joined_fields_inj l1 l2 (CR ++ LF) after_field_crlf Hlen Hrow).
Qed.

Lemma csv_row_injective_witness :
  length ["a,b"; "x"] = length ["a,b"; "x"]
  /\ csv_row ["a,b"; "x"] = csv_row ["a,b"; "x"]
  /\ ["a,b"; "x"] = ["a,b"; "x"].
Proof.
  split; [reflexivity|]. split; [reflexivity|].
  exact (csv_row_injective ["a,b"; "x"] ["a,b"; "x"] eq_refl eq_refl).
Defined.

(** X11: a save either shows an error and leaves the file system as it was
    (blank text, no label, or a file that cannot be opened), or reports
    success and only appends: every file that existed keeps its content as a
    prefix of what it holds afterwards. *)
Theorem save_item_all_or_nothing
        (csv_path email_text : string) (chosen_label : option string)
        (subj sender : string) (fs : filesystem) :
  (exists msg,
      Demo.save_item csv_path email_text chosen_label subj sender fs
      = ([StError msg], fs))
  \/ (fst (Demo.save_item csv_path email_text chosen_label subj sender fs)
      = [StSuccess ("Saved to " ++ csv_path)]
      /\ forall p old,
          files fs !! p = Some old ->
          exists suffix,
            files (snd (Demo.save_item csv_path email_text chosen_label
                                       subj sender fs)) !! p
            = Some (old ++ suffix)).
Proof.
  unfold Demo.save_item.
  destruct (str_truthy (strip email_text)); cbn [negb];
    [|left; eexists; reflexivity].
  destruct chosen_label as [chosen|]; [|left; eexists; reflexivity].
  destruct (str_truthy chosen); cbn [negb]; [|left; eexists; reflexivity].
  unfold append_file.
  destruct (denied fs csv_path) as [msg|]; [left; eexists; reflexivity|].
  right; split; [reflexivity|].
  intros p old Hold; cbn [snd files].
  destruct (decide (p = csv_path)) as [-> | Hp].
  - rewrite lookup_insert_eq, Hold.
    unfold path_exists; rewrite Hold; cbn [negb].
    eexists; reflexivity.
  - rewrite lookup_insert_ne by congruence.
    exists EmptyString. now rewrite Hold, append_nil_r.
Qed.



(** * More on the captioning page ([image.py]) *)

Section CaptionPage.

Variable decode : string -> result ImageApp.image.
Variable up : ImageApp.upload.
Variable img : ImageApp.image.
Variable prompt : string.

Hypothesis Hdecode : decode (ImageApp.up_bytes up) = Ok img.

(** With a decoded picture and the button pressed, the page is the preview
    followed by what the button does. *)
Lemma page_clicked :
  exists shown, forall w,
    ImageApp.page decode (Some up) prompt true w
    = (let '(e, out, w') := ImageApp.generate_caption prompt img w in
       (e, (shown ++ out)%list, w')).
Proof.
  unfold ImageApp.page. rewrite Hdecode.
  destruct (ImageApp.img_size img) as [wd ht].
  eexists; intros w; reflexivity.
Qed.

Lemma page_not_clicked (w : world) :
  snd (ImageApp.page decode (Some up) prompt false w) = w.
Proof.
  unfold ImageApp.page. rewrite Hdecode.
  now destruct (ImageApp.img_size img).
Qed.

End CaptionPage.

Lemma generate_caption_world (prompt : string) (img : ImageApp.image) (w : world) :
  snd (ImageApp.generate_caption prompt img w)
  = {| server := server w;
       sent := (sent w ++ [ImageApp.caption_request prompt img])%list |}.
Proof.
  unfold ImageApp.generate_caption, requests_post.
  destruct (let* resp := server w (ImageApp.caption_request prompt img) in
            let* _ := raise_for_status resp in
            let* caption := ImageApp.caption_text resp in
            Ok (if str_truthy caption
                then [StSubheader "Caption"; StWrite caption]
                else [StWarning "No caption returned."])) as [out | e];
    [reflexivity|].
  destruct (is_request_exception e); reflexivity.
Qed.

(** X13: a run of the captioning page posts only when a picture was decoded
    and the button pressed, and then once: to [<base>/api/generate], with the
    model name, the prompt of the box, the picture as the one element of
    "images", streaming off, and a timeout of 120 seconds. *)
Theorem page_requests
        (decode : string -> result ImageApp.image)
        (uploaded : option ImageApp.upload) (prompt : string) (clicked : bool)
        (w : world) :
  sent (snd (ImageApp.page decode uploaded prompt clicked w))
  = (sent w ++
     match uploaded with
     | Some up =>
         match decode (ImageApp.up_bytes up) with
         | Ok img =>
             if clicked then
               [{| req_url := "http://127.0.0.1:11434/api/generate";
                   req_json :=
                     JObject [("model", JString "qwen2.5vl:3b");
                              ("prompt", JString prompt);
                              ("images", JArray [JString (ImageApp.img_b64 img)]);
                              ("stream", JBool false)];
                   req_timeout := 120 |}]
             else []
         | Raise _ => []
         end
     | None => []
     end)%list.
Proof.
  destruct uploaded as [up|]; [|cbn; now rewrite app_nil_r].
  destruct (decode (ImageApp.up_bytes up)) as [img | e] eqn:Hd.
  - destruct clicked.
    + destruct (page_clicked decode up img prompt Hd) as (shown & Hpage).
      rewrite Hpage.
      pose proof (generate_caption_world prompt img w) as Hw.
      destruct (ImageApp.generate_caption prompt img w) as [[e out] w'].
      cbn [snd] in *; subst w'. reflexivity.
    + rewrite (page_not_clicked decode up img prompt Hd). now rewrite app_nil_r.
  - unfold ImageApp.page; rewrite Hd. cbn [snd]. now rewrite app_nil_r.
Qed.




(** X15: a reply with a status from 400 to 599 is shown as an error,
    "Ollama request failed: " with the status line of the reply, and the page
    runs to its end; a 404 gets no hint of its own here. *)
Theorem page_shows_http_error
        (decode : string -> result ImageApp.image) (up : ImageApp.upload)
        (img : ImageApp.image) (prompt : string) (w : world) (resp : response)
        (Hdecode : decode (ImageApp.up_bytes up) = Ok img)
        (Hreply : server w (ImageApp.caption_request prompt img) = Ok resp)
        (Hstatus : 400 <= status_code resp < 600) :
  exists shown w',
    ImageApp.page decode (Some up) prompt true w
    = (ImageApp.Finished,
       (shown ++ [StError ("Ollama request failed: " ++ http_error_text resp)])%list,
       w').
Proof.
  destruct (page_clicked decode up img prompt Hdecode) as (shown & Hpage).
  rewrite Hpage.
  unfold ImageApp.generate_caption, requests_post.
  rewrite Hreply; cbn [bind].
  rewrite (raise_for_status_raises resp Hstatus); cbn [bind is_request_exception].
  exists shown; eexists; reflexivity.
Qed.

Lemma page_shows_http_error_witness :
  decode_known (ImageApp.up_bytes holiday_jpg) = Ok holiday_image
  /\ exists shown w',
      ImageApp.page decode_known (Some holiday_jpg) "Describe this photo." true
                    (always (Ok reply_404))
      = (ImageApp.Finished,
         (shown ++ [StError ("Ollama request failed: 404 Client Error: Not Found"
                               ++ " for url: " ++ generate_url)])%list,
         w').
Proof.
  split; [reflexivity|].
  apply (page_shows_http_error
           decode_known holiday_jpg holiday_image "Describe this photo."
           (always (Ok reply_404)) reply_404).
  - reflexivity.
  - reflexivity.
  - simpl; lia.
Defined.

(** X16: the page catches request errors only.  When a success reply is
    JSON but not an object, or its "response" is a truthy value that is not
    a string (true, a number other than zero, a non-empty list or object),
    the attribute error escapes and the run ends with it. *)
Theorem page_crashes_on_odd_reply
        (decode : string -> result ImageApp.image) (up : ImageApp.upload)
        (img : ImageApp.image) (prompt : string) (w : world) (resp : response)
        (Hdecode : decode (ImageApp.up_bytes up) = Ok img)
        (Hreply : server w (ImageApp.caption_request prompt img) = Ok resp)
        (Hstatus : 200 <= status_code resp < 300)
        (Hodd : (exists v, json_loads (resp_text resp) = Ok v
                           /\ forall d, v <> JObject d)
                \/ (exists d v, json_loads (resp_text resp) = Ok (JObject d)
                                /\ dict_get "response" d = Some v
                                /\ py_truthy v = true
                                /\ forall s, v <> JString s)) :
  exists msg shown w',
    ImageApp.page decode (Some up) prompt true w
    = (ImageApp.Crashed (AttributeError msg), shown, w').
Proof.
  destruct (page_clicked decode up img prompt Hdecode) as (shown & Hpage).
  rewrite Hpage.
  unfold ImageApp.generate_caption, requests_post.
  rewrite Hreply; cbn [bind].
  rewrite (raise_for_status_ok resp Hstatus); cbn [bind].
  unfold ImageApp.caption_text, response_json.
  destruct Hodd as [(v & -> & Hv) | (d & v & -> & Hd & Ht & Hv)].
  - destruct v; try (do 3 eexists; reflexivity).
    now destruct (Hv members).
  - cbn [bind get_method]. rewrite Hd, Ht.
    destruct v; try (do 3 eexists; reflexivity).
    now destruct (Hv s).
Qed.

Lemma page_crashes_on_odd_reply_witness :
  decode_known (ImageApp.up_bytes holiday_jpg) = Ok holiday_image
  /\ json_loads (resp_text reply_list_body) = Ok (JArray [JInt 1])
  /\ exists msg shown w',
      ImageApp.page decode_known (Some holiday_jpg) "Describe this photo." true
                    (always (Ok reply_list_body))
      = (ImageApp.Crashed (AttributeError msg), shown, w').
Proof.
  split; [reflexivity|]. split; [vm_compute; reflexivity|].
  apply (page_crashes_on_odd_reply
           decode_known holiday_jpg holiday_image "Describe this photo."
           (always (Ok reply_list_body)) reply_list_body).
  - reflexivity.
  - reflexivity.
  - simpl; lia.
  - left. exists (JArray [JInt 1]). split; [vm_compute; reflexivity | discriminate].
Defined.

(** X17: the metadata box always says something, and a line it shows is one
    of its two notices or an entry of the picture's EXIF data whose tag is
    among the seven listed; no other tag is ever shown. *)
Theorem show_metadata_lines (img : ImageApp.image) :
  ImageApp.show_metadata img <> []
  /\ forall u, In u (ImageApp.show_metadata img) ->
               u = StWrite "No EXIF metadata found."
               \/ u = StWrite "No common EXIF fields found."
               \/ exists k v, In (k, v) (ImageApp.img_exif img)
                              /\ In k ImageApp.exif_tags
                              /\ u = StWrite (str_of_int k ++ ": " ++ v).
Proof.
  unfold ImageApp.show_metadata.
  destruct (ImageApp.img_exif img) as [|kv meta] eqn:Hexif.
  { split; [discriminate|]. intros u [<- | []]; now left. }
  destruct (filter _ (kv :: meta)) as [|item items] eqn:Hf.
  { split; [discriminate|]. intros u [<- | []]; right; now left. }
  split; [discriminate|].
  intros u Hu; right; right.
  apply in_map_iff in Hu; destruct Hu as ([k v] & <- & Hkv).
  rewrite <- Hf in Hkv.
  apply list_elem_of_In, list_elem_of_filter in Hkv; destruct Hkv as [Hknown Hin].
  exists k, v; split; [now apply list_elem_of_In|].
  split; [|reflexivity].
  cbn [fst] in Hknown.
  apply Is_true_true, existsb_exists in Hknown.
  destruct Hknown as (t & Ht & Heq).
  apply Z.eqb_eq in Heq; now subst t.
Qed.

(** * The sidebar and [classify_text] together *)



